(** * graphql-mocks: resolver wrapping in a resolver map, and the mirage
      root-query auto resolver

    A shallow embedding of [src/resolver/wrap-in-map.ts]: the function
    [wrapResolverInMap] (lines 5-45) and, from the second compilation unit
    carried by the same file, [findMatchingModelsForType] (lines 58-97) and
    [mirageRootQueryResolver] (lines 99-162).

    Conventions of the embedding:
    - a JavaScript call either returns a value or throws; this is the type
      [completion];
    - the resolver map is a mutable object that the wrapper receives by
      reference, so resolver maps live in a store ([Heap]) and are passed as
      locations;
    - the variables captured by the arrow function that [wrapResolverInMap]
      returns are assigned by its body (lines 19 and 26), so the returned
      function is modelled as its captured environment, which every
      invocation reads and writes;
    - functions imported from modules that are not part of the translated
      file are fields of a class of imports, over which the model is
      parametric. *)

From Stdlib Require Import String Ascii List Bool.
From stdpp Require Import base option gmap strings list fin_maps.

Set Default Proof Using "Type".

(** ** Completions: returning or throwing *)

Inductive completion (E A : Type) : Type :=
| Returns (a : A)
| Throws (e : E).
Arguments Returns {E A} a.
Arguments Throws {E A} e.

#[global] Instance completion_ret {E} : MRet (completion E) :=
  λ A a, Returns a.
#[global] Instance completion_bind {E} : MBind (completion E) :=
  λ A B k c, match c with Returns a => k a | Throws e => Throws e end.

(** [try { c } catch (e) { throw h(e) }] *)
Definition rethrow {E E' A} (h : E → E') (c : completion E A)
  : completion E' A :=
  match c with
  | Returns a => Returns a
  | Throws e => Throws (h e)
  end.

(** [try { return c } catch { return d }] *)
Definition catch_return {E A} (c : completion E A) (d : A) : A :=
  match c with
  | Returns a => a
  | Throws _ => d
  end.

(** [a || b] on values that are either an object or [undefined]. *)
Definition or_else {A} (a b : option A) : option A :=
  match a with
  | Some x => Some x
  | None => b
  end.

(** ** Text of the template literals *)

Definition dquote : string := String "034"%char EmptyString.
Definition newline : string := String "010"%char EmptyString.

(** [s.endsWith(suffix)] *)
Definition endsWith (s suffix : string) : bool :=
  let n := String.length s in
  let k := String.length suffix in
  (k <=? n)%nat && String.eqb (substring (n - k) k s) suffix.

(** [`${name}`] for a name that may be [undefined]. *)
Definition interpolate (name : option string) : string :=
  match name with
  | Some s => s
  | None => "undefined"
  end.

(** ** Part 1: [wrapResolverInMap] (lines 1-45) *)

Module WrapInMap.

Definition loc := nat.

(** Types of [../types] and of the GraphQL library, and [Thrown], whatever
    an imported function throws. *)
Class Types := {
  GraphQLSchema : Type;
  GraphQLType : Type;
  GraphQLField : Type;
  Resolver : Type;
  ResolverWrapper : Type;
  Thrown : Type;
}.

Section Data.
Context {T : Types}.

Record Dependencies := { graphqlSchema : option GraphQLSchema }.
Record PackOptions := { dependencies : Dependencies }.

(** The third argument of [wrapResolver] (lines 28-33); [resolvers] is the
    resolver map object itself. *)
Record WrapperOptions := {
  type : GraphQLType;
  field : GraphQLField;
  resolvers : loc;
  packOptions : PackOptions;
}.

Inductive exn :=
| Error (message : string)
| Raised (t : Thrown).

(** The environment captured by the arrow function of line 11: the four
    parameters of [wrapResolverInMap]. Lines 19 and 26 assign to
    [resolver] and [resolverWrappers]. *)
Record ResolverMapWrapper := {
  typeName : string;
  fieldName : string;
  resolverWrappers : list ResolverWrapper;
  resolver : option Resolver;
}.

(** The state an invocation leaves behind, and how it completed. *)
Record Outcome := {
  wrapper' : ResolverMapWrapper;
  heap' : gmap loc (gmap string (gmap string Resolver));
  completed : completion exn loc;
}.
End Data.

(** Imported from [../utils] and [./wrap]. They may throw; they do not
    write to the resolver map. *)
Class Imports {T : Types} := {
  embedPackOptions : ResolverWrapper;
  getTypeAndField :
    string → string → GraphQLSchema → completion Thrown (GraphQLType * GraphQLField);
  wrapResolver :
    Resolver → list ResolverWrapper → WrapperOptions → completion Thrown Resolver;
}.

Section WrapResolverInMap.
Context {T : Types} {I : Imports}.

(** A resolver map sends a type name, then a field name, to a resolver;
    the store holds the resolver-map objects. Lookup models own
    properties of plain objects keyed by GraphQL names. A location passed
    to the wrapper designates an object of the store; [h !!! l] reads it
    (and reads the empty map at a location that holds nothing). *)
Local Abbreviation ResolverMap := (gmap string (gmap string Resolver)).
Local Abbreviation Heap := (gmap loc (gmap string (gmap string Resolver))).

(** [resolverMap[typeName]?.[fieldName]] *)
Definition lookupResolver (m : ResolverMap) (typeName fieldName : string)
  : option Resolver :=
  m !! typeName ≫= (λ fields, fields !! fieldName).

(** Modelled from the spec: [addResolverToMap] of [../utils] is not part
    of the translated file. Its use at lines 35-41 is described as
    installing the resolver at [resolverMap[typeName][fieldName]],
    overwriting any existing entry; the object is updated in place. With
    [overwrite] unset an existing entry is kept; that branch is never
    taken by [wrapResolverInMap], which passes [overwrite: true]. *)
Definition addResolverToMap (resolverMap : loc) (typeName fieldName : string)
    (resolver : Resolver) (overwrite : bool) (h : Heap) : Heap :=
  let m := h !!! resolverMap in
  if negb overwrite && bool_decide (is_Some (lookupResolver m typeName fieldName))
  then h
  else
    <[resolverMap :=
        <[typeName := <[fieldName := resolver]> (default ∅ (m !! typeName))]> m]> h.

Definition wrapResolverInMap (typeName fieldName : string)
    (resolverWrappers : list ResolverWrapper) (resolver : option Resolver)
  : ResolverMapWrapper :=
  {| typeName := typeName; fieldName := fieldName;
     resolverWrappers := resolverWrappers; resolver := resolver |}.

Definition schemaExpected : string :=
  dquote +:+ "graphqlSchema" +:+ dquote
  +:+ " expected on packOptions.dependencies. Specify it on the dependencies of the `pack`".

Definition couldNotDetermine (typeName fieldName : string) : string :=
  "Could not determine resolver to wrap, either pass one into this `wrap`, or have an initial resolver on the resolver map at type: "
  +:+ dquote +:+ typeName +:+ dquote +:+ ", field " +:+ dquote +:+ fieldName +:+ dquote.

(** One invocation [w(resolverMap, packOptions)] of the function returned
    by [wrapResolverInMap], lines 11-44. *)
Definition invoke (w : ResolverMapWrapper) (resolverMap : loc)
    (packOptions : PackOptions) (h : Heap) : Outcome :=
  match graphqlSchema (dependencies packOptions) with
  | None =>
    (* lines 13-17 *)
    {| wrapper' := w; heap' := h; completed := Throws (Error schemaExpected) |}
  | Some schema =>
    (* line 19 *)
    let chosen :=
      or_else (resolver w)
              (lookupResolver (h !!! resolverMap) (typeName w) (fieldName w)) in
    let w1 := {| typeName := typeName w; fieldName := fieldName w;
                 resolverWrappers := resolverWrappers w; resolver := chosen |} in
    match chosen with
    | None =>
      (* lines 20-24 *)
      {| wrapper' := w1; heap' := h;
         completed := Throws (Error (couldNotDetermine (typeName w) (fieldName w))) |}
    | Some r =>
      (* line 26 *)
      let wrappers := resolverWrappers w ++ [embedPackOptions] in
      let w2 := {| typeName := typeName w; fieldName := fieldName w;
                   resolverWrappers := wrappers; resolver := chosen |} in
      (* line 27 *)
      match getTypeAndField (typeName w) (fieldName w) schema with
      | Throws t => {| wrapper' := w2; heap' := h; completed := Throws (Raised t) |}
      | Returns (ty, fd) =>
        (* lines 28-33 *)
        match wrapResolver r wrappers
                {| type := ty; field := fd; resolvers := resolverMap;
                   packOptions := packOptions |} with
        | Throws t => {| wrapper' := w2; heap' := h; completed := Throws (Raised t) |}
        | Returns wrappedResolver =>
          (* lines 35-43 *)
          {| wrapper' := w2;
             heap' := addResolverToMap resolverMap (typeName w) (fieldName w)
                        wrappedResolver true h;
             completed := Returns resolverMap |}
        end
      end
    end
  end.

End WrapResolverInMap.

End WrapInMap.

(** ** Part 2: the mirage root-query resolver (lines 46-162) *)

Module Mirage.

(** A value that may be [null] or [undefined]. *)
Inductive nullable (A : Type) : Type :=
| IsNull
| IsUndefined
| Present (a : A).
Arguments IsNull {A}.
Arguments IsUndefined {A}.
Arguments Present {A} a.

(** The types the resolver handles without looking inside: the resolver
    arguments, results ([any] in the source), GraphQL types, the two mirage
    dependencies, and [Thrown], whatever a collaborator throws. *)
Class Types := {
  Parent : Type;
  Args : Type;
  Ctx : Type;
  value : Type;
  GraphQLOutputType : Type;
  GraphQLNamedType : Type;
  MirageGraphQLMapper : Type;
  MirageServer : Type;
  Collection : Type;
  CursorForNode : Type;
  Thrown : Type;
}.

Section Data.
Context {T : Types}.

(** The fields of [GraphQLResolveInfo] read at line 100. *)
Record Info := {
  returnType : GraphQLOutputType;
  fieldName : string;
  parentType : GraphQLNamedType;
}.

(** [RootQueryResolverMatch], lines 92-96. *)
Record RootQueryResolverMatch := {
  models : value;
  matchedModelName : option string;
  modelNameCandidates : list string;
}.

(** [AutoResolverErrorMeta], lines 109-118 and 143. *)
Record AutoResolverErrorMeta := {
  parent : Parent;
  args : Args;
  info : Info;
  context : Ctx;
  autoResolverType : string;
  isRelay : bool;
  usedFieldFilter : bool;
  hasFieldFilter : bool;
  match_ : option RootQueryResolverMatch;
}.

Inductive exn :=
| Error (message : string)
| AutoResolverError (error : Thrown) (meta : AutoResolverErrorMeta).

(** A field filter registered on the mapper, called at line 149. *)
Definition FieldFilter : Type :=
  list value → Parent → Args → Ctx → Info → completion Thrown value.

(** The result of [extractDependencies], line 102; with
    [required: false] either dependency may be [undefined]. *)
Record MirageDependencies := {
  mirageMapper : option MirageGraphQLMapper;
  mirageServer : option MirageServer;
}.
End Data.

(** What the translated file imports or calls on its collaborators. The
    calls made inside a [try] block may throw. *)
Class Imports {T : Types} := {
  (** [null] and [undefined] *)
  null : value;
  undefined : value;
  (** [unwrap] of [../../graphql/utils], [.name] and [isScalarType] *)
  unwrap : GraphQLOutputType → GraphQLNamedType;
  name : GraphQLNamedType → string;
  isScalarType : GraphQLNamedType → bool;
  extractDependencies : Ctx → MirageDependencies;
  (** [mirageMapper.findFieldFilter([typeName, fieldName])] *)
  findFieldFilter : MirageGraphQLMapper → string * string → option FieldFilter;
  (** [mirageMapper.findMatchForType(typeName)] *)
  findMatchForType : MirageGraphQLMapper → string → option string;
  cleanRelayConnectionName : string → option string;
  (** [Boolean(mirageServer.schema.collectionForType(candidate))] *)
  collectionForType : MirageServer → string → completion Thrown bool;
  (** [mirageServer.schema.all(modelName)]; [None] is a nullish result *)
  schema_all : MirageServer → option string → completion Thrown (option Collection);
  (** [collection.models] *)
  collection_models : Collection → value;
  (** what reading [.schema] of an [undefined] server throws *)
  undefinedServerError : Thrown;
  (** [e.message] *)
  message : Thrown → string;
  coerceToList : value → completion Thrown (nullable (list value));
  coerceReturnType : value → Info → completion Thrown value;
  relayPaginateNodes : list value → Args → CursorForNode → completion Thrown value;
  mirageCursorForNode : CursorForNode;
}.

Section RootQueryResolver.
Context {T : Types} {I : Imports}.

(** [Boolean(x)] for a string or [undefined]. *)
Definition truthy (x : option string) : bool :=
  match x with
  | Some s => negb (String.eqb s EmptyString)
  | None => false
  end.

(** [xs.filter(Boolean)] *)
Fixpoint filterBoolean (xs : list (option string)) : list string :=
  match xs with
  | [] => []
  | Some s :: rest =>
    if truthy (Some s) then s :: filterBoolean rest else filterBoolean rest
  | None :: rest => filterBoolean rest
  end.

(** What one entry contributes to the filtered list: itself if truthy. *)
Definition candidate (x : option string) : list string :=
  match x with
  | Some s => if String.eqb s EmptyString then [] else [s]
  | None => []
  end.

(** [mirageServer.schema], a [TypeError] when the server is [undefined]. *)
Definition withSchema {A} (mirageServer : option MirageServer)
    (call : MirageServer → completion Thrown A) : completion Thrown A :=
  match mirageServer with
  | Some server => call server
  | None => Throws undefinedServerError
  end.

(** The callback of [find], lines 73-81. *)
Definition hasCollection (mirageServer : option MirageServer)
    (candidate : string) : bool :=
  catch_return
    (withSchema mirageServer (λ server, collectionForType server candidate))
    false.

Definition unableToLookUp (matchedModelName : option string) (e : Thrown) : string :=
  "Unable to look up collection for " +:+ interpolate matchedModelName
  +:+ " on mirage schema, received error:" +:+ newline +:+ message e.

(** Line 65: [mirageMapper && type.name &&
    mirageMapper.findMatchForType(type.name)], the first falsy operand or
    else the last one. *)
Definition mappedModelName (mirageMapper : option MirageGraphQLMapper)
    (typeName : string) : option string :=
  match mirageMapper with
  | None => None
  | Some mapper =>
    if truthy (Some typeName) then findMatchForType mapper typeName
    else Some typeName
  end.

(** Lines 58-97. *)
Definition findMatchingModelsForType (type : GraphQLOutputType)
    (mirageMapper : option MirageGraphQLMapper)
    (mirageServer : option MirageServer)
  : completion exn RootQueryResolverMatch :=
  let type := unwrap type in
  (* line 71 *)
  let modelNameCandidates :=
    filterBoolean
      [mappedModelName mirageMapper (name type);
       cleanRelayConnectionName (name type);
       Some (name type)] in
  (* lines 73-81 *)
  let matchedModelName :=
    List.find (hasCollection mirageServer) modelNameCandidates in
  (* lines 83-90 *)
  collection ←
    rethrow (λ e, Error (unableToLookUp matchedModelName e))
      (withSchema mirageServer (λ server, schema_all server matchedModelName));
  let models := from_option collection_models undefined collection in
  mret {| models := models;
          matchedModelName := matchedModelName;
          modelNameCandidates := modelNameCandidates |}.

Definition scalarsCannotBeAutoResolved (info : Info) : string :=
  "Scalars cannot be auto-resolved with mirage from the root query type. "
  +:+ name (parentType info) +:+ "." +:+ fieldName info
  +:+ " resolves to a scalar, or a list, of type "
  +:+ name (unwrap (returnType info))
  +:+ ". Try adding a field filter for this field and returning a value for this field.".

(** Line 101. *)
Definition isRelayPaginated (info : Info) : bool :=
  endsWith (name (unwrap (returnType info))) "Connection".

(** Line 107. *)
Definition fieldFilterFor (deps : MirageDependencies) (info : Info)
  : option FieldFilter :=
  mirageMapper deps ≫= λ mapper,
    findFieldFilter mapper (name (parentType info), fieldName info).

(** Lines 109-118. *)
Definition initialErrorMeta (parent : Parent) (args : Args) (context : Ctx)
    (info : Info) (fieldFilter : option FieldFilter) : AutoResolverErrorMeta :=
  {| parent := parent; args := args; info := info; context := context;
     autoResolverType := "ROOT_TYPE";
     isRelay := isRelayPaginated info;
     usedFieldFilter := false;
     hasFieldFilter := bool_decide (is_Some fieldFilter);
     match_ := None |}.

(** [errorMeta.match = match], line 143. *)
Definition setMatch (errorMeta : AutoResolverErrorMeta)
    (m : RootQueryResolverMatch) : AutoResolverErrorMeta :=
  {| parent := parent errorMeta; args := args errorMeta; info := info errorMeta;
     context := context errorMeta;
     autoResolverType := autoResolverType errorMeta;
     isRelay := isRelay errorMeta;
     usedFieldFilter := usedFieldFilter errorMeta;
     hasFieldFilter := hasFieldFilter errorMeta;
     match_ := Some m |}.

(** [errorMeta.usedFieldFilter = true], line 150. *)
Definition setUsedFieldFilter (errorMeta : AutoResolverErrorMeta)
  : AutoResolverErrorMeta :=
  {| parent := parent errorMeta; args := args errorMeta; info := info errorMeta;
     context := context errorMeta;
     autoResolverType := autoResolverType errorMeta;
     isRelay := isRelay errorMeta;
     usedFieldFilter := true;
     hasFieldFilter := hasFieldFilter errorMeta;
     match_ := match_ errorMeta |}.

(** A call made inside the [try] of lines 147-161: what it throws is
    caught and thrown again inside an [AutoResolverError] that carries
    [errorMeta] as it is at that moment. *)
Definition guarded {A} (errorMeta : AutoResolverErrorMeta)
    (call : completion Thrown A) : completion exn A :=
  rethrow (λ error, AutoResolverError error errorMeta) call.

(** [xs ?? []] *)
Definition orEmpty (xs : nullable (list value)) : list value :=
  match xs with
  | Present l => l
  | IsNull | IsUndefined => []
  end.

(** Lines 121-145: the scalar check and the model lookup, giving
    [errorMeta] and [result] as they are when the [try] block starts. *)
Definition queryModels (deps : MirageDependencies) (info : Info)
    (fieldFilter : option FieldFilter) (errorMeta : AutoResolverErrorMeta)
  : completion exn (AutoResolverErrorMeta * value) :=
  let hasScalarInReturnType := isScalarType (unwrap (returnType info)) in
  if hasScalarInReturnType && negb (bool_decide (is_Some fieldFilter)) then
    Throws (Error (scalarsCannotBeAutoResolved info))
  else if negb hasScalarInReturnType then
    m ← findMatchingModelsForType (returnType info)
           (mirageMapper deps) (mirageServer deps);
    mret (setMatch errorMeta m, models m)
  else
    mret (errorMeta, null).

(** Lines 148-151. *)
Definition applyFieldFilter (fieldFilter : option FieldFilter)
    (parent : Parent) (args : Args) (context : Ctx) (info : Info)
    (errorMeta : AutoResolverErrorMeta) (result : value)
  : completion exn (AutoResolverErrorMeta * value) :=
  match fieldFilter with
  | Some filter =>
    list ← guarded errorMeta (coerceToList result);
    result ← guarded errorMeta (filter (orEmpty list) parent args context info);
    mret (setUsedFieldFilter errorMeta, result)
  | None => mret (errorMeta, result)
  end.

(** Lines 153-158. *)
Definition coerceResult (args : Args) (info : Info)
    (errorMeta : AutoResolverErrorMeta) (result : value)
  : completion exn value :=
  if isRelayPaginated info then
    nodes ← guarded errorMeta (coerceToList result);
    match nodes with
    | Present nodes =>
      guarded errorMeta (relayPaginateNodes nodes args mirageCursorForNode)
    | IsNull => mret null
    | IsUndefined => mret undefined
    end
  else
    guarded errorMeta (coerceReturnType result info).

(** Lines 99-162. *)
Definition mirageRootQueryResolver (parent : Parent) (args : Args)
    (context : Ctx) (info : Info) : completion exn value :=
  let deps := extractDependencies context in
  let fieldFilter := fieldFilterFor deps info in
  let errorMeta := initialErrorMeta parent args context info fieldFilter in
  '(errorMeta, result) ← queryModels deps info fieldFilter errorMeta;
  '(errorMeta, result) ←
    applyFieldFilter fieldFilter parent args context info errorMeta result;
  coerceResult args info errorMeta result.

(** What the metadata of an [AutoResolverError] holds for a call
    [mirageRootQueryResolver(parent, args, context, info)]: the four
    arguments, the resolver type, the relay flag, the two field-filter
    flags, and the match if one was computed (lines 109-118, 143, 150). *)
Definition accumulated (parent : Parent) (args : Args) (context : Ctx)
    (info : Info) (used : bool) (meta : AutoResolverErrorMeta) : Prop :=
  let deps := extractDependencies context in
  Mirage.parent meta = parent
  ∧ Mirage.args meta = args
  ∧ Mirage.info meta = info
  ∧ Mirage.context meta = context
  ∧ autoResolverType meta = "ROOT_TYPE"
  ∧ isRelay meta = endsWith (name (unwrap (returnType info))) "Connection"
  ∧ hasFieldFilter meta = bool_decide (is_Some (fieldFilterFor deps info))
  ∧ usedFieldFilter meta = used
  ∧ match_ meta
    = if isScalarType (unwrap (returnType info)) then None
      else match findMatchingModelsForType (returnType info)
                   (mirageMapper deps) (mirageServer deps) with
           | Returns m => Some m
           | Throws _ => None
           end.

End RootQueryResolver.

(** The same imports with another mirage schema behind
    [collectionForType] and [all]. *)
Definition withCollections {T : Types} (I : Imports)
    (collectionForType' : MirageServer → string → completion Thrown bool)
    (schema_all' : MirageServer → option string → completion Thrown (option Collection))
  : Imports :=
  {| null := null; undefined := undefined; unwrap := unwrap; name := name;
     isScalarType := isScalarType; extractDependencies := extractDependencies;
     findFieldFilter := findFieldFilter; findMatchForType := findMatchForType;
     cleanRelayConnectionName := cleanRelayConnectionName;
     collectionForType := collectionForType';
     schema_all := schema_all';
     collection_models := collection_models;
     undefinedServerError := undefinedServerError;
     message := message;
     coerceToList := coerceToList;
     coerceReturnType := coerceReturnType;
     relayPaginateNodes := relayPaginateNodes;
     mirageCursorForNode := mirageCursorForNode |}.

End Mirage.

(** ** Concrete collaborators

    Small instances of the imports, on which the model runs: they are the
    inputs of the examples that follow the theorems. *)

Module WrapInMapDemo.
Import WrapInMap.

(** A resolver is a named function, or the result of applying a named
    wrapper to a resolver. *)
Inductive resolver :=
| Plain (id : string)
| Wrapped (wrapper : string) (inner : resolver).

(** A schema lists its types with their fields. *)
Definition schema : Type := list (string * list string).

#[export] Instance types : Types :=
  {| GraphQLSchema := schema; GraphQLType := string; GraphQLField := string;
     Resolver := resolver; ResolverWrapper := string; Thrown := string |}.

Definition lookupTypeAndField (typeName fieldName : string) (s : schema)
  : completion string (string * string) :=
  match List.find (λ entry, String.eqb (fst entry) typeName) s with
  | None => Throws "unknown type"
  | Some (_, fields) =>
    if existsb (String.eqb fieldName) fields then Returns (typeName, fieldName)
    else Throws "unknown field"
  end.

#[export] Instance imports : Imports :=
  {| embedPackOptions := "embedPackOptions";
     getTypeAndField := lookupTypeAndField;
     wrapResolver := λ r wrappers _,
       Returns (fold_left (λ acc w, Wrapped w acc) wrappers r) |}.

Definition querySchema : schema := [("Query", ["hello"; "people"])].

Definition withSchema : PackOptions :=
  {| dependencies := {| graphqlSchema := Some querySchema |} |}.
Definition withoutSchema : PackOptions :=
  {| dependencies := {| graphqlSchema := None |} |}.

(** Two resolver-map objects: at location 0 a map with a resolver for
    [Query.hello], at location 1 an empty map. *)
Definition store : gmap loc (gmap string (gmap string resolver)) :=
  {[ 0 := {[ "Query" := {[ "hello" := Plain "hello" ]} ]}; 1 := ∅ ]}.
End WrapInMapDemo.

Module MirageDemo.
Import Mirage.

Inductive gtype :=
| Named (name : string) (scalar : bool)
| ListOf (ofType : gtype)
| NonNull (ofType : gtype).

#[local] Unset Elimination Schemes.
Inductive dvalue :=
| DNull
| DUndefined
| DText (s : string)
| DModel (id : nat)
| DArray (items : list dvalue)
| DConnection (nodes : list dvalue).
#[local] Set Elimination Schemes.

(** A mirage server holds collections of model ids by model name; the
    resolver context is a number that selects the dependencies. *)
#[export] Instance types : Types :=
  {| Parent := unit; Args := nat; Ctx := nat; value := dvalue;
     GraphQLOutputType := gtype; GraphQLNamedType := string * bool;
     MirageGraphQLMapper := unit;
     MirageServer := list (string * list nat);
     Collection := list nat;
     CursorForNode := unit;
     Thrown := string |}.

Fixpoint stripWrappers (t : gtype) : string * bool :=
  match t with
  | Named n scalar => (n, scalar)
  | ListOf t | NonNull t => stripWrappers t
  end.

Definition server : list (string * list nat) :=
  [("Person", [1; 2]); ("Pet", [7]); ("Animal", [9])].

Definition dependenciesOf (context : nat) : MirageDependencies :=
  match context with
  | 0 => {| mirageMapper := None; mirageServer := None |}
  | 1 => {| mirageMapper := Some (); mirageServer := Some server |}
  | _ => {| mirageMapper := None; mirageServer := Some server |}
  end.

Definition filters (key : string * string) : option FieldFilter :=
  if String.eqb (snd key) "motto" then
    Some (λ _ _ _ _ _, Returns (DText "hi"))
  else if String.eqb (snd key) "friendsConnection" then
    Some (λ _ _ _ _ _, Returns DNull)
  else if String.eqb (snd key) "cursorConnection" then
    Some (λ _ _ _ _ _, Returns (DText "c"))
  else if String.eqb (snd key) "broken" then
    Some (λ _ _ _ _ _, Throws "filter failed")
  else None.

Definition collectionOf (s : list (string * list nat)) (modelName : string)
  : option (list nat) :=
  snd <$> List.find (λ entry, String.eqb (fst entry) modelName) s.

Definition stripConnection (n : string) : option string :=
  if endsWith n "Connection"
  then Some (substring 0 (String.length n - 10) n)
  else None.

#[export] Instance imports : Imports :=
  {| null := DNull;
     undefined := DUndefined;
     unwrap := stripWrappers;
     name := fst;
     isScalarType := snd;
     extractDependencies := dependenciesOf;
     findFieldFilter := λ _ key, filters key;
     findMatchForType := λ _ n,
       if String.eqb n "Human" then Some "Person"
       else if String.eqb n "Animal" then Some "Creature"
       else None;
     cleanRelayConnectionName := stripConnection;
     collectionForType := λ s modelName,
       match collectionOf s modelName with
       | Some _ => Returns true
       | None => Throws "no such collection"
       end;
     schema_all := λ s modelName,
       match modelName ≫= collectionOf s with
       | Some ids => Returns (Some ids)
       | None => Throws "no such collection"
       end;
     collection_models := λ ids, DArray (DModel <$> ids);
     undefinedServerError := "cannot read properties of undefined";
     message := λ e, e;
     coerceToList := λ v,
       match v with
       | DNull => Returns IsNull
       | DUndefined => Returns IsUndefined
       | DArray items => Returns (Present items)
       | _ => Returns (Present [v])
       end;
     coerceReturnType := λ v _, Returns v;
     relayPaginateNodes := λ nodes first _,
       if decide (first = 0) then Throws "first must be positive"
       else Returns (DConnection (take first nodes));
     mirageCursorForNode := () |}.

Definition query : string * bool := ("Query", false).

Definition fieldInfo (fieldName : string) (returnType : gtype) : Info :=
  {| returnType := returnType; fieldName := fieldName; parentType := query |}.

(** The fields of the examples, and the metadata two of them reach. *)
Definition people : Info := fieldInfo "people" (ListOf (Named "Human" false)).

Definition motto : Info := fieldInfo "motto" (Named "String" true).

Definition peopleConnection : Info :=
  fieldInfo "peopleConnection" (Named "PersonConnection" false).

Definition personMatch : RootQueryResolverMatch :=
  {| models := DArray [DModel 1; DModel 2];
     matchedModelName := Some "Person";
     modelNameCandidates := ["Person"; "PersonConnection"] |}.

Definition broken : Info := fieldInfo "broken" (Named "Person" false).

Definition brokenMeta : AutoResolverErrorMeta :=
  setMatch
    (initialErrorMeta (T := types) () 2 1 broken
       (Some (λ _ _ _ _ _, Throws "filter failed")))
    {| models := DArray [DModel 1; DModel 2];
       matchedModelName := Some "Person";
       modelNameCandidates := ["Person"] |}.

Definition animalMatch : RootQueryResolverMatch :=
  {| models := DArray [DModel 9];
     matchedModelName := Some "Animal";
     modelNameCandidates := ["Creature"; "Animal"] |}.
End MirageDemo.

(** ** Properties of [wrapResolverInMap] *)

Module WrapInMapProofs.
Import WrapInMap.

Section Installing.
Context {T : Types} {I : Imports}.

Local Abbreviation Heap := (gmap loc (gmap string (gmap string Resolver))).

Lemma addResolverToMap_installed (l : loc) (t f : string) (r : Resolver)
    (h : Heap) :
  lookupResolver (addResolverToMap l t f r true h !!! l) t f = Some r.
Proof.
  unfold addResolverToMap, lookupResolver; simpl.
  rewrite lookup_total_insert_eq, lookup_insert_eq; simpl.
  apply lookup_insert_eq.
Qed.

Lemma addResolverToMap_other_object (l l2 : loc) (t f : string)
    (r : Resolver) (overwrite : bool) (h : Heap) :
  l2 ≠ l → addResolverToMap l t f r overwrite h !! l2 = h !! l2.
Proof.
  intros Hne. unfold addResolverToMap.
  destruct (negb overwrite && _); [reflexivity|].
  by rewrite lookup_insert_ne.
Qed.

Lemma addResolverToMap_other_type (l : loc) (t t2 f : string)
    (r : Resolver) (h : Heap) :
  t2 ≠ t →
  (addResolverToMap l t f r true h !!! l) !! t2 = (h !!! l) !! t2.
Proof.
  intros Hne. unfold addResolverToMap; simpl.
  rewrite lookup_total_insert_eq. by rewrite lookup_insert_ne.
Qed.

Lemma addResolverToMap_other_field (l : loc) (t f f2 : string)
    (r : Resolver) (h : Heap) :
  f2 ≠ f →
  lookupResolver (addResolverToMap l t f r true h !!! l) t f2
  = lookupResolver (h !!! l) t f2.
Proof.
  intros Hne. unfold addResolverToMap, lookupResolver; simpl.
  rewrite lookup_total_insert_eq, lookup_insert_eq; simpl.
  rewrite lookup_insert_ne by done.
  destruct ((h !!! l) !! t); simpl; [reflexivity | apply lookup_empty].
Qed.

(** An invocation that returns has gone through every step of the body. *)
Lemma invoke_returns (w : ResolverMapWrapper) (l l' : loc)
    (po : PackOptions) (h : Heap) :
  completed (invoke w l po h) = Returns l' →
  ∃ schema r ty fd wrapped,
    graphqlSchema (dependencies po) = Some schema
    ∧ or_else (resolver w) (lookupResolver (h !!! l) (typeName w) (fieldName w))
      = Some r
    ∧ getTypeAndField (typeName w) (fieldName w) schema = Returns (ty, fd)
    ∧ wrapResolver r (resolverWrappers w ++ [embedPackOptions])
        {| type := ty; field := fd; resolvers := l; packOptions := po |}
      = Returns wrapped
    ∧ l' = l
    ∧ heap' (invoke w l po h)
      = addResolverToMap l (typeName w) (fieldName w) wrapped true h.
Proof.
  unfold invoke.
  destruct (graphqlSchema (dependencies po)) as [schema|]; [|discriminate].
  destruct (or_else _ _) as [r|] eqn:Hr; [|discriminate].
  destruct (getTypeAndField _ _ _) as [[ty fd]|] eqn:Hg; [|discriminate].
  destruct (wrapResolver _ _ _) as [wrapped|] eqn:Hw; [|discriminate].
  simpl. intros [= <-]. by exists schema, r, ty, fd, wrapped.
Qed.

(** Line 19 stores the resolver it has chosen in the captured variable,
    whatever the rest of the invocation does. *)
Lemma invoke_remembers_resolver (w : ResolverMapWrapper) (l : loc)
    (po : PackOptions) (h : Heap) (schema : GraphQLSchema) :
  graphqlSchema (dependencies po) = Some schema →
  resolver (wrapper' (invoke w l po h))
  = or_else (resolver w) (lookupResolver (h !!! l) (typeName w) (fieldName w)).
Proof.
  intros Hs. unfold invoke. rewrite Hs.
  destruct (or_else _ _) as [r|]; [|reflexivity].
  destruct (getTypeAndField _ _ _) as [[ty fd]|]; [|reflexivity].
  by destruct (wrapResolver _ _ _).
Qed.

(** With a resolver in the captured variable or in the map, the error of
    lines 20-24 is not the one thrown. *)
Lemma invoke_with_determinable_resolver (w : ResolverMapWrapper) (l : loc)
    (po : PackOptions) (h : Heap) (r : Resolver) :
  or_else (resolver w) (lookupResolver (h !!! l) (typeName w) (fieldName w))
  = Some r →
  completed (invoke w l po h)
  ≠ Throws (Error (couldNotDetermine (typeName w) (fieldName w))).
Proof.
  intros Hr. unfold invoke. rewrite Hr; simpl.
  destruct (graphqlSchema (dependencies po)) as [schema|]; [|].
  - destruct (getTypeAndField _ _ _) as [[ty fd]|]; [|discriminate].
    by destruct (wrapResolver _ _ _).
  - unfold schemaExpected, couldNotDetermine. discriminate.
Qed.

(** On a wrapper as [wrapResolverInMap] returns it, with no resolver
    passed and none in the map, the invocation throws and leaves the
    resolver map as it was. *)
Lemma fresh_invoke_without_resolver (typeName fieldName : string)
    (wrappers : list ResolverWrapper) (l : loc) (po : PackOptions) (h : Heap) :
  lookupResolver (h !!! l) typeName fieldName = None →
  let o := invoke (wrapResolverInMap typeName fieldName wrappers None) l po h in
  (∃ msg, completed o = Throws (Error msg)) ∧ heap' o = h.
Proof.
  intros Hnone. unfold invoke; simpl. rewrite Hnone; simpl.
  destruct (graphqlSchema (dependencies po)); simpl; eauto.
Qed.

(** C1. Applying the function that [wrapResolverInMap] returns to a
    resolver map and pack options, with [graphqlSchema] among the
    dependencies and a resolver to choose (the one passed in, else the
    one the map holds at [typeName], [fieldName]), returns the resolver
    map, which then holds at [typeName], [fieldName] the result of
    [wrapResolver] on the chosen resolver and the wrappers passed in
    followed by [embedPackOptions]; an entry that was there is replaced.
    The two imported calls are taken to return. *)
Theorem wrapResolverInMap_installs (typeName fieldName : string)
    (wrappers : list ResolverWrapper) (resolver : option Resolver)
    (resolverMap : loc) (po : PackOptions) (h : Heap)
    (schema : GraphQLSchema) (r wrapped : Resolver)
    (ty : GraphQLType) (fd : GraphQLField) :
  graphqlSchema (dependencies po) = Some schema →
  or_else resolver (lookupResolver (h !!! resolverMap) typeName fieldName)
  = Some r →
  getTypeAndField typeName fieldName schema = Returns (ty, fd) →
  wrapResolver r (wrappers ++ [embedPackOptions])
    {| type := ty; field := fd; resolvers := resolverMap; packOptions := po |}
  = Returns wrapped →
  let o := invoke (wrapResolverInMap typeName fieldName wrappers resolver)
             resolverMap po h in
  completed o = Returns resolverMap
  ∧ lookupResolver (heap' o !!! resolverMap) typeName fieldName = Some wrapped.
Proof.
  intros Hs Hr Hg Hw. unfold invoke; simpl.
  rewrite Hs, Hr, Hg, Hw; simpl.
  split; [reflexivity | apply addResolverToMap_installed].
Qed.

(** C6. In every invocation, whatever the captured variables hold, a
    missing [graphqlSchema] makes the wrapper throw, and the store of
    resolver maps is what it was: no entry is added, removed or replaced.
    The captured variables are unchanged as well. *)
Theorem invoke_without_schema (w : ResolverMapWrapper) (resolverMap : loc)
    (po : PackOptions) (h : Heap) :
  graphqlSchema (dependencies po) = None →
  let o := invoke w resolverMap po h in
  completed o = Throws (Error schemaExpected) ∧ heap' o = h ∧ wrapper' o = w.
Proof.
  intros Hs. unfold invoke. by rewrite Hs.
Qed.

(** C10. An invocation that returns gives back the location it was
    given; in the store, every other object is unchanged, and in the
    resolver map itself every other type keeps its resolvers and every
    other field of [typeName] keeps its resolver. *)
Theorem invoke_frame (w : ResolverMapWrapper) (resolverMap returned : loc)
    (po : PackOptions) (h : Heap) :
  completed (invoke w resolverMap po h) = Returns returned →
  let h' := heap' (invoke w resolverMap po h) in
  returned = resolverMap
  ∧ (∀ other, other ≠ resolverMap → h' !! other = h !! other)
  ∧ (∀ t, t ≠ typeName w → (h' !!! resolverMap) !! t = (h !!! resolverMap) !! t)
  ∧ (∀ f, f ≠ fieldName w →
       lookupResolver (h' !!! resolverMap) (typeName w) f
       = lookupResolver (h !!! resolverMap) (typeName w) f).
Proof.
  intros Hret.
  destruct (invoke_returns _ _ _ _ _ Hret)
    as (schema & r & ty & fd & wrapped & _ & _ & _ & _ & -> & Hh).
  simpl. rewrite Hh. split; [reflexivity|]. split; [|split].
  - intros other Hne. by apply addResolverToMap_other_object.
  - intros t Hne. by apply addResolverToMap_other_type.
  - intros f Hne. by apply addResolverToMap_other_field.
Qed.

End Installing.

Import WrapInMapDemo.

Lemma wrapResolverInMap_installs_witness :
  let o := invoke (wrapResolverInMap (T := types) "Query" "hello" ["log"; "auth"] None)
             0 withSchema store in
  completed o = Returns 0
  ∧ lookupResolver (heap' o !!! 0) "Query" "hello"
    = Some (Wrapped "embedPackOptions"
              (Wrapped "auth" (Wrapped "log" (Plain "hello")))).
Proof.
  apply (wrapResolverInMap_installs (T := types) (I := imports) "Query" "hello" ["log"; "auth"] None
           0 withSchema store querySchema (Plain "hello") _ "Query" "hello");
    reflexivity.
Defined.

Lemma invoke_without_schema_witness :
  let o := invoke (wrapResolverInMap (T := types) "Query" "hello" [] None) 0 withoutSchema store in
  completed o = Throws (Error schemaExpected) ∧ heap' o = store
  ∧ wrapper' o = wrapResolverInMap (T := types) "Query" "hello" [] None.
Proof.
  apply (invoke_without_schema (T := types) (I := imports) (wrapResolverInMap (T := types) "Query" "hello" [] None)
           0 withoutSchema store).
  reflexivity.
Defined.

Lemma invoke_frame_witness :
  let w := wrapResolverInMap (T := types) "Query" "people" [] (Some (Plain "people")) in
  let h' := heap' (invoke w 0 withSchema store) in
  0 = 0
  ∧ (∀ other, other ≠ 0 → h' !! other = store !! other)
  ∧ (∀ t, t ≠ "Query" → (h' !!! 0) !! t = (store !!! 0) !! t)
  ∧ (∀ f, f ≠ "people" →
       lookupResolver (h' !!! 0) "Query" f = lookupResolver (store !!! 0) "Query" f).
Proof.
  apply (invoke_frame (T := types) (I := imports) (wrapResolverInMap (T := types) "Query" "people" [] (Some (Plain "people")))
           0 0 withSchema store).
  reflexivity.
Defined.

(** C7. A wrapper made without a resolver is invoked twice: first on the
    map at location 0, which holds a resolver for [Query.hello], then on
    the empty map at location 1. No resolver was passed and the second
    map has no entry, yet the second invocation does not throw: it
    returns, having installed in the empty map the resolver taken from
    the first map, wrapped with [embedPackOptions] twice. *)
Theorem second_invocation_reuses_resolver :
  let w := wrapResolverInMap (T := types) "Query" "hello" [] None in
  let first := invoke w 0 withSchema store in
  let second := invoke (wrapper' first) 1 withSchema (heap' first) in
  lookupResolver (heap' first !!! 1) "Query" "hello" = None
  ∧ completed second = Returns 1
  ∧ lookupResolver (heap' second !!! 1) "Query" "hello"
    = Some (Wrapped "embedPackOptions"
              (Wrapped "embedPackOptions" (Plain "hello"))).
Proof.
  vm_compute. repeat split; reflexivity.
Qed.

End WrapInMapProofs.

(** ** Properties of the mirage root-query resolver *)

Module MirageProofs.
Import Mirage.

Ltac run :=
  repeat (unfold mbind, mret, completion_bind, completion_ret,
            guarded, rethrow in *; simpl in *).

Section Matching.
Context {T : Types} {I : Imports}.

Lemma find_first {A} (P : A → bool) (pre post : list A) (c : A) :
  (∀ x, x ∈ pre → P x = false) → P c = true →
  List.find P (pre ++ c :: post) = Some c.
Proof.
  intros Hpre Hc. induction pre as [|y pre IH]; simpl.
  - by rewrite Hc.
  - rewrite (Hpre y) by apply list_elem_of_here.
    apply IH. intros x Hx. apply Hpre. by apply list_elem_of_further.
Qed.

Lemma hasCollection_spec (server : MirageServer) (x : string) :
  hasCollection (Some server) x = true ↔ collectionForType server x = Returns true.
Proof.
  unfold hasCollection, withSchema, catch_return.
  destruct (collectionForType server x) as [[]|]; split; congruence.
Qed.

Lemma filterBoolean_candidates (a b c : option string) :
  filterBoolean [a; b; c] = candidate a ++ candidate b ++ candidate c.
Proof.
  destruct a as [a|], b as [b|], c as [c|]; simpl;
    repeat match goal with
           | |- context [String.eqb ?s EmptyString] =>
             destruct (String.eqb s EmptyString)
           end; reflexivity.
Qed.

Lemma candidate_nonempty (x : option string) (s : string) :
  s ∈ candidate x → s ≠ EmptyString ∧ x = Some s.
Proof.
  destruct x as [y|]; simpl; [|by intros ?%elem_of_nil].
  destruct (String.eqb_spec y EmptyString) as [->|Hne].
  - by intros ?%elem_of_nil.
  - intros ->%list_elem_of_singleton. done.
Qed.

(** With a mapper and a non-empty type name, the first candidate is the
    mapper's match for the type name. *)
Lemma mappedModelName_match (mapper : MirageGraphQLMapper) (n : string) :
  n ≠ EmptyString →
  mappedModelName (Some mapper) n = findMatchForType mapper n.
Proof.
  intros Hne. unfold mappedModelName; simpl.
  by destruct (String.eqb_spec n EmptyString).
Qed.

(** C2. The candidates are, in this order, the mapper's match for the
    type name, the type name cleaned of its relay suffix, and the type
    name itself, each present only if truthy. If [c] is the first of them
    for which [collectionForType] gives a collection, it is the matched
    model name, and the models returned are those of [all(c)]. *)
Theorem findMatchingModelsForType_first_match (type : GraphQLOutputType)
    (mapper : option MirageGraphQLMapper) (server : MirageServer)
    (pre post : list string) (c : string) (found : option Collection) :
  let n := name (unwrap type) in
  let candidates :=
    candidate (mappedModelName mapper n)
    ++ candidate (cleanRelayConnectionName n)
    ++ candidate (Some n) in
  candidates = pre ++ c :: post →
  (∀ x, x ∈ pre → collectionForType server x ≠ Returns true) →
  collectionForType server c = Returns true →
  schema_all server (Some c) = Returns found →
  findMatchingModelsForType type mapper (Some server)
  = Returns {| models := from_option collection_models undefined found;
               matchedModelName := Some c;
               modelNameCandidates := candidates |}.
Proof.
  intros n candidates Hsplit Hpre Hc Hall.
  unfold findMatchingModelsForType. fold n.
  rewrite filterBoolean_candidates. fold candidates.
  assert (List.find (hasCollection (Some server)) candidates = Some c) as ->.
  { rewrite Hsplit. apply find_first.
    - intros x Hx. specialize (Hpre x Hx).
      destruct (hasCollection (Some server) x) eqn:E; [|reflexivity].
      by apply hasCollection_spec in E.
    - by apply hasCollection_spec. }
  run. by rewrite Hall.
Qed.

End Matching.

Section Resolving.
Context {T : Types} {I : Imports}.

Lemma applyFieldFilter_returns (ff : option FieldFilter) (p : Parent)
    (a : Args) (c : Ctx) (i : Info) (m m2 : AutoResolverErrorMeta)
    (r r2 : value) :
  applyFieldFilter ff p a c i m r = Returns (m2, r2) →
  m2 = (if bool_decide (is_Some ff) then setUsedFieldFilter m else m).
Proof.
  unfold applyFieldFilter. destruct ff as [f|]; run.
  - destruct (coerceToList r) as [l|]; [|discriminate]. run.
    destruct (f _ _ _ _ _); [|discriminate]. run. by intros [= <- _].
  - by intros [= <- _].
Qed.

Lemma queryModels_throws (deps : MirageDependencies) (i : Info)
    (ff : option FieldFilter) (m : AutoResolverErrorMeta) (e : exn) :
  queryModels deps i ff m = Throws e → ∃ msg, e = Error msg.
Proof.
  unfold queryModels, findMatchingModelsForType.
  destruct (isScalarType _ && _); [intros [= <-]; eauto|].
  destruct (negb _); [|discriminate]. run.
  destruct (withSchema _ _); run; [discriminate|].
  intros [= <-]; eauto.
Qed.

(** A match that is returned holds the models of the collection that the
    mirage schema gives for the matched model name. *)
Lemma findMatchingModelsForType_models (type : GraphQLOutputType)
    (mapper : option MirageGraphQLMapper) (mirageServer : option MirageServer)
    (m : RootQueryResolverMatch) :
  findMatchingModelsForType type mapper mirageServer = Returns m →
  ∃ server found,
    mirageServer = Some server
    ∧ schema_all server (matchedModelName m) = Returns found
    ∧ models m = from_option collection_models undefined found.
Proof.
  unfold findMatchingModelsForType.
  destruct mirageServer as [server|]; run; [|discriminate].
  destruct (schema_all server _) as [found|] eqn:Hall; run; [|discriminate].
  intros [= <-]. by exists server, found.
Qed.

(** C3. For a field whose unwrapped return type is not a scalar, the
    result with which the resolver enters its [try] block is the [models]
    of the match that [findMatchingModelsForType] computes for the
    field's return type, that is the models of the mirage collection of
    the matched model name; the field filter and the coercions then work
    on it. If the lookup throws, so does the resolver. *)
Theorem root_query_result_is_matched_models (p : Parent) (a : Args)
    (c : Ctx) (i : Info) :
  isScalarType (unwrap (returnType i)) = false →
  let deps := extractDependencies c in
  let fieldFilter := fieldFilterFor deps i in
  let errorMeta := initialErrorMeta p a c i fieldFilter in
  let matching :=
    findMatchingModelsForType (returnType i) (mirageMapper deps) (mirageServer deps) in
  queryModels deps i fieldFilter errorMeta
  = (m ← matching; mret (setMatch errorMeta m, models m))
  ∧ mirageRootQueryResolver p a c i
    = (m ← matching;
       '(errorMeta, result) ←
         applyFieldFilter fieldFilter p a c i (setMatch errorMeta m) (models m);
       coerceResult a i errorMeta result)
  ∧ (∀ m, matching = Returns m →
       ∃ server found,
         mirageServer deps = Some server
         ∧ schema_all server (matchedModelName m) = Returns found
         ∧ models m = from_option collection_models undefined found).
Proof.
  intros Hscalar deps fieldFilter errorMeta matching.
  assert (queryModels deps i fieldFilter errorMeta
          = (m ← matching; mret (setMatch errorMeta m, models m))) as Hq.
  { unfold queryModels. by rewrite Hscalar. }
  split; [exact Hq|]. split.
  - unfold mirageRootQueryResolver. fold deps fieldFilter errorMeta.
    rewrite Hq. by destruct matching.
  - intros m. unfold matching. apply findMatchingModelsForType_models.
Qed.

(** C4. When the mapper has a field filter for the parent type name and
    the field name, the resolver calls it on the list coerced from the
    intermediate result, or on the empty list when the coercion gives
    [null] or [undefined], with parent, args, context and info; what the
    filter returns is the result that pagination or return-type coercion
    then works on. *)
Theorem field_filter_replaces_result (p : Parent) (a : Args) (c : Ctx)
    (i : Info) (mapper : MirageGraphQLMapper) (filter : FieldFilter) :
  mirageMapper (extractDependencies c) = Some mapper →
  findFieldFilter mapper (name (parentType i), fieldName i) = Some filter →
  let deps := extractDependencies c in
  let errorMeta := initialErrorMeta p a c i (Some filter) in
  mirageRootQueryResolver p a c i
  = ('(errorMeta, result) ← queryModels deps i (Some filter) errorMeta;
     list ← guarded errorMeta (coerceToList result);
     filtered ← guarded errorMeta
                  (filter (match list with
                           | Present l => l
                           | IsNull | IsUndefined => []
                           end) p a c i);
     coerceResult a i (setUsedFieldFilter errorMeta) filtered).
Proof.
  intros Hm Hf deps errorMeta.
  unfold mirageRootQueryResolver. fold deps.
  assert (fieldFilterFor deps i = Some filter) as ->.
  { unfold fieldFilterFor, deps. rewrite Hm. exact Hf. }
  fold errorMeta.
  destruct (queryModels deps i (Some filter) errorMeta) as [[m r]|]; [|reflexivity].
  run. destruct (coerceToList r) as [l|]; [|reflexivity]. run.
  unfold orEmpty.
  by destruct (filter _ p a c i).
Qed.

(** C5, as amended. On a field whose unwrapped return type has a name
    ending in [Connection], the result is coerced to a list; if that
    gives a list of nodes, the resolver returns [relayPaginateNodes] of
    the nodes, the field arguments and [mirageCursorForNode]; if it gives
    [null] or [undefined], the resolver returns that. On any other field
    the result is returned through [coerceReturnType]. *)
Theorem relay_connection_or_coerced (p : Parent) (a : Args) (c : Ctx)
    (i : Info) (meta1 meta2 : AutoResolverErrorMeta) (result1 result2 : value) :
  let deps := extractDependencies c in
  let fieldFilter := fieldFilterFor deps i in
  queryModels deps i fieldFilter (initialErrorMeta p a c i fieldFilter)
  = Returns (meta1, result1) →
  applyFieldFilter fieldFilter p a c i meta1 result1 = Returns (meta2, result2) →
  let resolved := mirageRootQueryResolver p a c i in
  (endsWith (name (unwrap (returnType i))) "Connection" = true →
     (∀ nodes, coerceToList result2 = Returns (Present nodes) →
        resolved = guarded meta2 (relayPaginateNodes nodes a mirageCursorForNode))
     ∧ (coerceToList result2 = Returns IsNull → resolved = Returns null)
     ∧ (coerceToList result2 = Returns IsUndefined → resolved = Returns undefined))
  ∧ (endsWith (name (unwrap (returnType i))) "Connection" = false →
       resolved = guarded meta2 (coerceReturnType result2 i)).
Proof.
  intros deps fieldFilter Hq Hf resolved.
  assert (resolved = coerceResult a i meta2 result2) as ->.
  { unfold resolved, mirageRootQueryResolver. fold deps fieldFilter.
    rewrite Hq. run. by rewrite Hf. }
  unfold coerceResult, isRelayPaginated.
  split; intros ->; [|reflexivity].
  split; [|split]; [intros nodes Hl | intros Hl ..]; by rewrite Hl.
Qed.

Lemma queryModels_accumulated (p : Parent) (a : Args) (c : Ctx) (i : Info)
    (m : AutoResolverErrorMeta) (r : value) :
  let deps := extractDependencies c in
  let fieldFilter := fieldFilterFor deps i in
  queryModels deps i fieldFilter (initialErrorMeta p a c i fieldFilter)
  = Returns (m, r) →
  accumulated p a c i false m.
Proof.
  intros deps fieldFilter. unfold queryModels, accumulated.
  fold deps fieldFilter.
  destruct (isScalarType (unwrap (returnType i))); simpl.
  - destruct (bool_decide (is_Some fieldFilter)) eqn:Hff; run; [|discriminate].
    intros [= <- _]. simpl. by rewrite Hff.
  - destruct (findMatchingModelsForType _ _ _) as [found|]; run; [|discriminate].
    by intros [= <- _].
Qed.

Lemma accumulated_used (p : Parent) (a : Args) (c : Ctx) (i : Info)
    (m : AutoResolverErrorMeta) :
  accumulated p a c i false m → accumulated p a c i true (setUsedFieldFilter m).
Proof.
  unfold accumulated; simpl. intuition.
Qed.

Lemma applyFieldFilter_throws (ff : option FieldFilter) (p : Parent)
    (a : Args) (c : Ctx) (i : Info) (m : AutoResolverErrorMeta)
    (r : value) (e : exn) :
  applyFieldFilter ff p a c i m r = Throws e →
  ∃ t, e = AutoResolverError t m.
Proof.
  unfold applyFieldFilter. destruct ff as [f|]; run; [|discriminate].
  destruct (coerceToList r) as [l|]; run; [|intros [= <-]; eauto].
  destruct (f _ _ _ _ _); run; [discriminate | intros [= <-]; eauto].
Qed.

Lemma coerceResult_throws (a : Args) (i : Info) (m : AutoResolverErrorMeta)
    (r : value) (e : exn) :
  coerceResult a i m r = Throws e → ∃ t, e = AutoResolverError t m.
Proof.
  unfold coerceResult. destruct (isRelayPaginated i); run.
  - destruct (coerceToList r) as [[| |nodes]|]; run;
      [discriminate | discriminate | | intros [= <-]; eauto].
    destruct (relayPaginateNodes _ _ _); [discriminate | intros [= <-]; eauto].
  - destruct (coerceReturnType r i); [discriminate | intros [= <-]; eauto].
Qed.

(** C8. What is thrown while the field filter is applied (by the list
    coercion or by the filter), by relay pagination or by the return-type
    coercion is thrown again inside an [AutoResolverError] carrying the
    metadata gathered up to then: the four arguments, [ROOT_TYPE], the
    relay flag, whether there is a field filter and whether it has
    returned, and the match if one was computed. What is thrown before
    the [try], by the scalar check or by the model lookup, is a plain
    [Error] and leaves the resolver as it is. The resolver throws nothing
    else. *)
Theorem try_block_errors_are_wrapped (p : Parent) (a : Args) (c : Ctx)
    (i : Info) :
  let deps := extractDependencies c in
  let fieldFilter := fieldFilterFor deps i in
  let errorMeta := initialErrorMeta p a c i fieldFilter in
  let resolved := mirageRootQueryResolver p a c i in
  (∀ e, queryModels deps i fieldFilter errorMeta = Throws e →
     resolved = Throws e ∧ ∃ msg, e = Error msg)
  ∧ (isScalarType (unwrap (returnType i)) = false →
     ∀ e, findMatchingModelsForType (returnType i)
            (mirageMapper deps) (mirageServer deps) = Throws e →
       resolved = Throws e)
  ∧ (∀ meta1 result1,
       queryModels deps i fieldFilter errorMeta = Returns (meta1, result1) →
       accumulated p a c i false meta1
       ∧ (∀ filter t, fieldFilter = Some filter →
            coerceToList result1 = Throws t
            ∨ (∃ l, coerceToList result1 = Returns l
                    ∧ filter (orEmpty l) p a c i = Throws t) →
            resolved = Throws (AutoResolverError t meta1))
       ∧ (∀ meta2 result2,
            applyFieldFilter fieldFilter p a c i meta1 result1
            = Returns (meta2, result2) →
            accumulated p a c i (bool_decide (is_Some fieldFilter)) meta2
            ∧ ∀ t,
                (if isRelayPaginated i
                 then coerceToList result2 = Throws t
                      ∨ (∃ nodes, coerceToList result2 = Returns (Present nodes)
                                  ∧ relayPaginateNodes nodes a mirageCursorForNode
                                    = Throws t)
                 else coerceReturnType result2 i = Throws t) →
                resolved = Throws (AutoResolverError t meta2)))
  ∧ (∀ e, resolved = Throws e →
       (∃ msg, e = Error msg
               ∧ queryModels deps i fieldFilter errorMeta = Throws e)
       ∨ (∃ t meta used, e = AutoResolverError t meta
                         ∧ accumulated p a c i used meta)).
Proof.
  intros deps fieldFilter errorMeta resolved.
  assert (resolved
          = ('(m, r) ← queryModels deps i fieldFilter errorMeta;
             '(m, r) ← applyFieldFilter fieldFilter p a c i m r;
             coerceResult a i m r)) as Hres by reflexivity.
  split; [|split; [|split]].
  - intros e He. rewrite Hres, He. split; [reflexivity|].
    by apply queryModels_throws in He.
  - intros Hscalar e He. rewrite Hres.
    unfold queryModels. rewrite Hscalar; simpl. rewrite He. reflexivity.
  - intros meta1 result1 Hq.
    pose proof (queryModels_accumulated p a c i meta1 result1 Hq) as Hacc.
    split; [exact Hacc|]. rewrite Hres, Hq. split.
    + intros filter t -> Hthrown. run.
      destruct Hthrown as [Hl | (l & Hl & Hf)]; rewrite Hl; run;
        [reflexivity | by rewrite Hf].
    + intros meta2 result2 Hf.
      pose proof (applyFieldFilter_returns _ _ _ _ _ _ _ _ _ Hf) as ->.
      split.
      { destruct (bool_decide (is_Some fieldFilter));
          [by apply accumulated_used | exact Hacc]. }
      intros t Hthrown. run. rewrite Hf. run.
      unfold coerceResult. destruct (isRelayPaginated i); run.
      * destruct Hthrown as [Hl | (nodes & Hl & Hp)]; rewrite Hl; run;
          [reflexivity | by rewrite Hp].
      * by rewrite Hthrown.
  - intros e. rewrite Hres.
    destruct (queryModels deps i fieldFilter errorMeta) as [[m1 r1]|e1] eqn:Hq.
    2:{ run. intros [= <-]. left.
        destruct (queryModels_throws _ _ _ _ _ Hq) as [msg ->]. eauto. }
    pose proof (queryModels_accumulated p a c i m1 r1 Hq) as Hacc.
    run.
    destruct (applyFieldFilter fieldFilter p a c i m1 r1) as [[m2 r2]|e2] eqn:Hf.
    2:{ intros [= <-]. right.
        destruct (applyFieldFilter_throws _ _ _ _ _ _ _ _ Hf) as [t ->]. eauto. }
    pose proof (applyFieldFilter_returns _ _ _ _ _ _ _ _ _ Hf) as ->.
    intros [t ->]%coerceResult_throws. right.
    destruct (bool_decide (is_Some fieldFilter)).
    + exists t, (setUsedFieldFilter m1), true.
      split; [reflexivity | by apply accumulated_used].
    + by exists t, m1, false.
Qed.

(** C9, as amended. For a field whose unwrapped return type is a
    scalar, the outcome of the resolver does not depend on the mirage
    collections. Without a field filter it throws the error that
    recommends one. With a field filter, list coercion of [null] giving
    [null] or [undefined], the filter is called on the empty list, and
    its result is returned through [coerceReturnType] if the name of the
    scalar does not end in [Connection], and through relay pagination if
    it does. *)
Theorem scalar_fields_bypass_mirage (p : Parent) (a : Args) (c : Ctx)
    (i : Info) :
  isScalarType (unwrap (returnType i)) = true →
  let deps := extractDependencies c in
  let fieldFilter := fieldFilterFor deps i in
  let errorMeta := initialErrorMeta p a c i fieldFilter in
  let resolved := mirageRootQueryResolver p a c i in
  (fieldFilter = None →
     resolved = Throws (Error (scalarsCannotBeAutoResolved i)))
  ∧ (∀ filter nothing,
       fieldFilter = Some filter →
       coerceToList null = Returns nothing →
       (∀ l, nothing ≠ Present l) →
       resolved
       = (r ← guarded errorMeta (filter [] p a c i);
          coerceResult a i (setUsedFieldFilter errorMeta) r)
       ∧ (endsWith (name (unwrap (returnType i))) "Connection" = false →
          resolved
          = (r ← guarded errorMeta (filter [] p a c i);
             guarded (setUsedFieldFilter errorMeta) (coerceReturnType r i))))
  ∧ (∀ collectionForType' schema_all',
       mirageRootQueryResolver
         (I := withCollections I collectionForType' schema_all') p a c i
       = resolved).
Proof.
  intros Hscalar deps fieldFilter errorMeta resolved.
  split; [|split].
  - intros Hnone. unfold resolved, mirageRootQueryResolver, queryModels.
    fold deps fieldFilter. rewrite Hscalar, Hnone. reflexivity.
  - intros filter nothing Hsome Hnull Hnothing.
    assert (resolved
            = (r ← guarded errorMeta (filter [] p a c i);
               coerceResult a i (setUsedFieldFilter errorMeta) r)) as Hres.
    { unfold resolved, mirageRootQueryResolver, queryModels.
      fold deps fieldFilter errorMeta. rewrite Hscalar.
      revert errorMeta. rewrite Hsome. intros errorMeta. run.
      rewrite Hnull. run.
      assert (orEmpty nothing = []) as ->.
      { destruct nothing as [| |l]; [reflexivity..|]. by destruct (Hnothing l). }
      by destruct (filter [] p a c i). }
    split; [exact Hres|].
    intros Hrelay. rewrite Hres. unfold coerceResult, isRelayPaginated.
    by rewrite Hrelay.
  - intros collectionForType' schema_all'.
    unfold resolved, mirageRootQueryResolver, queryModels; simpl.
    rewrite Hscalar. reflexivity.
Qed.

End Resolving.

Import MirageDemo.

(** The type [Animal]: the mapper proposes [Creature], which is not a
    collection, so the type name itself is matched. *)
Lemma findMatchingModelsForType_first_match_witness :
  findMatchingModelsForType (T := types) (Named "Animal" false) (Some ()) (Some server)
  = Returns {| models := DArray [DModel 9];
               matchedModelName := Some "Animal";
               modelNameCandidates := ["Creature"; "Animal"] |}.
Proof.
  apply (findMatchingModelsForType_first_match (T := types) (I := imports)
           (Named "Animal" false) (Some ()) server ["Creature"] [] "Animal"
           (Some [9])).
  - reflexivity.
  - intros x ->%list_elem_of_singleton. vm_compute. discriminate.
  - reflexivity.
  - reflexivity.
Defined.

Lemma root_query_result_is_matched_models_witness :
  isScalarType (unwrap (returnType people)) = false
  ∧ queryModels (dependenciesOf 1) people None
      (initialErrorMeta (T := types) () 2 1 people None)
    = (m ← findMatchingModelsForType (returnType people) (Some ()) (Some server);
       mret (setMatch (initialErrorMeta (T := types) () 2 1 people None) m, models m)).
Proof.
  split; [reflexivity|].
  apply (root_query_result_is_matched_models (T := types) (I := imports)
           () 2 1 people eq_refl).
Defined.

Lemma field_filter_replaces_result_witness :
  mirageRootQueryResolver (T := types) () 2 1 motto = Returns (DText "hi").
Proof.
  rewrite (field_filter_replaces_result (T := types) (I := imports)
             () 2 1 motto () (λ _ _ _ _ _, Returns (DText "hi")));
    reflexivity.
Defined.

Lemma relay_connection_or_coerced_witness :
  let meta :=
    setMatch (initialErrorMeta (T := types) () 1 1 peopleConnection None)
      personMatch in
  mirageRootQueryResolver (T := types) () 1 1 peopleConnection
  = guarded meta (relayPaginateNodes [DModel 1; DModel 2] 1 mirageCursorForNode).
Proof.
  intros meta.
  destruct (relay_connection_or_coerced (T := types) (I := imports)
              () 1 1 peopleConnection meta meta
              (DArray [DModel 1; DModel 2]) (DArray [DModel 1; DModel 2])
              eq_refl eq_refl) as [Hrelay _].
  destruct (Hrelay eq_refl) as [Hnodes _].
  apply Hnodes. reflexivity.
Defined.

(** C5, as stated, fails on a connection field whose field filter
    returns [null]: the list coercion gives [null], and the resolver
    returns it; [relayPaginateNodes] returns it for no list of nodes. *)
Lemma connection_field_returned_unpaginated :
  let friends := fieldInfo "friendsConnection" (Named "PersonConnection" false) in
  endsWith (name (unwrap (returnType friends))) "Connection" = true
  ∧ mirageRootQueryResolver (T := types) () 2 1 friends = Returns DNull
  ∧ ¬ ∃ nodes meta,
        mirageRootQueryResolver (T := types) () 2 1 friends
        = guarded meta (relayPaginateNodes nodes 2 mirageCursorForNode).
Proof.
  split; [reflexivity|]. split; [reflexivity|].
  intros (nodes & meta & H). vm_compute in H. discriminate H.
Qed.

Lemma try_block_errors_are_wrapped_witness :
  mirageRootQueryResolver (T := types) () 2 1 broken
  = Throws (AutoResolverError "filter failed" brokenMeta)
  ∧ accumulated () 2 1 broken false brokenMeta.
Proof.
  destruct (try_block_errors_are_wrapped (T := types) (I := imports)
              () 2 1 broken) as (_ & _ & Htry & _).
  destruct (Htry brokenMeta (DArray [DModel 1; DModel 2]) eq_refl)
    as (Hmeta & Hfilter & _).
  split; [|exact Hmeta].
  apply (Hfilter (λ _ _ _ _ _, Throws "filter failed") "filter failed" eq_refl).
  right. exists (Present [DModel 1; DModel 2]). split; reflexivity.
Defined.

Lemma scalar_fields_bypass_mirage_witness :
  isScalarType (unwrap (returnType motto)) = true
  ∧ ∀ collectionForType' schema_all',
      mirageRootQueryResolver
        (I := withCollections imports collectionForType' schema_all') () 2 1 motto
      = mirageRootQueryResolver (T := types) () 2 1 motto.
Proof.
  split; [reflexivity|].
  apply (scalar_fields_bypass_mirage (T := types) (I := imports) () 2 1 motto).
  reflexivity.
Defined.

(** C9, as stated, fails on a scalar whose name ends in [Connection]:
    the field filter is called on the empty list and returns a text, and
    the resolver returns a connection made of it, not what
    [coerceReturnType] gives for the text. *)
Lemma scalar_connection_is_paginated :
  let cursors := fieldInfo "cursorConnection" (Named "CursorConnection" true) in
  isScalarType (unwrap (returnType cursors)) = true
  ∧ (∃ filter,
       fieldFilterFor (dependenciesOf 1) cursors = Some filter
       ∧ filter [] () 2 1 cursors = Returns (DText "c"))
  ∧ coerceReturnType (DText "c") cursors = Returns (DText "c")
  ∧ mirageRootQueryResolver (T := types) () 2 1 cursors
    = Returns (DConnection [DText "c"])
  ∧ mirageRootQueryResolver (T := types) () 2 1 cursors ≠ Returns (DText "c").
Proof.
  split; [reflexivity|]. split; [eexists; split; reflexivity|].
  split; [reflexivity|]. split; [reflexivity|]. discriminate.
Qed.

End MirageProofs.

(** ** Further properties of [wrapResolverInMap] *)

Module WrapInMapExtras.
Import WrapInMap.

Section Invocations.
Context {T : Types} {I : Imports}.

Local Abbreviation Heap := (gmap loc (gmap string (gmap string Resolver))).

(** X1. An invocation that throws has not touched the store, and what it
    throws is one of four things: the error of lines 13-17 when
    [graphqlSchema] is missing; the error of lines 20-24 when there is a
    schema and no resolver to choose; what [getTypeAndField] threw; or,
    [getTypeAndField] having returned, what [wrapResolver] threw. *)
Theorem throwing_invocation (w : ResolverMapWrapper) (resolverMap : loc)
    (po : PackOptions) (h : Heap) (e : exn) :
  completed (invoke w resolverMap po h) = Throws e →
  let chosen :=
    or_else (resolver w)
      (lookupResolver (h !!! resolverMap) (typeName w) (fieldName w)) in
  heap' (invoke w resolverMap po h) = h
  ∧ ((graphqlSchema (dependencies po) = None ∧ e = Error schemaExpected)
     ∨ (∃ schema,
          graphqlSchema (dependencies po) = Some schema
          ∧ ((chosen = None
              ∧ e = Error (couldNotDetermine (typeName w) (fieldName w)))
             ∨ (∃ r, chosen = Some r
                  ∧ ((∃ t, getTypeAndField (typeName w) (fieldName w) schema
                           = Throws t
                           ∧ e = Raised t)
                     ∨ (∃ ty fd t,
                          getTypeAndField (typeName w) (fieldName w) schema
                          = Returns (ty, fd)
                          ∧ wrapResolver r (resolverWrappers w ++ [embedPackOptions])
                              {| type := ty; field := fd;
                                 resolvers := resolverMap; packOptions := po |}
                            = Throws t
                          ∧ e = Raised t)))))).
Proof.
  unfold invoke.
  destruct (graphqlSchema (dependencies po)) as [schema|]; simpl.
  2:{ intros [= <-]. split; [reflexivity|]. by left. }
  destruct (or_else _ _) as [r|] eqn:Hr; simpl.
  2:{ intros [= <-]. split; [reflexivity|]. right. exists schema.
      split; [reflexivity|]. by left. }
  destruct (getTypeAndField _ _ _) as [[ty fd]|t] eqn:Hg; simpl.
  2:{ intros [= <-]. split; [reflexivity|]. right. exists schema.
      split; [reflexivity|]. right. exists r. split; [reflexivity|].
      left. by exists t. }
  destruct (wrapResolver _ _ _) as [wrapped|t] eqn:Hw; simpl; [discriminate|].
  intros [= <-]. split; [reflexivity|]. right. exists schema.
  split; [reflexivity|]. right. exists r. split; [reflexivity|].
  right. by exists ty, fd, t.
Qed.

(** X2. What one invocation does to the captured variables: the type and
    field names stay; a resolver already held stays; the list of wrappers
    is unchanged or has grown by one [embedPackOptions] at its end, and it
    has grown exactly when there was a schema and a resolver to choose,
    whether or not the invocation then returned. *)
Theorem captured_variables_after (w : ResolverMapWrapper) (resolverMap : loc)
    (po : PackOptions) (h : Heap) :
  let w' := wrapper' (invoke w resolverMap po h) in
  let reached :=
    is_Some (graphqlSchema (dependencies po))
    ∧ is_Some (or_else (resolver w)
                 (lookupResolver (h !!! resolverMap) (typeName w) (fieldName w))) in
  typeName w' = typeName w
  ∧ fieldName w' = fieldName w
  ∧ (∀ r, resolver w = Some r → resolver w' = Some r)
  ∧ (reached → resolverWrappers w' = resolverWrappers w ++ [embedPackOptions])
  ∧ (¬ reached → resolverWrappers w' = resolverWrappers w).
Proof.
  unfold invoke.
  destruct (graphqlSchema (dependencies po)) as [schema|]; simpl.
  2:{ repeat split; try done. by intros [[? [=]] _]. }
  destruct (or_else _ _) as [r|] eqn:Hr; simpl.
  2:{ repeat split; try done.
      - intros r Hw. rewrite Hw in Hr. discriminate.
      - by intros [_ [? [=]]]. }
  assert (∀ r0, resolver w = Some r0 → Some r = Some r0) as Hkeep.
  { intros r0 Hw. rewrite Hw in Hr. simpl in Hr. congruence. }
  assert (¬ (is_Some (Some schema) ∧ is_Some (Some r)) →
          resolverWrappers w ++ [embedPackOptions] = resolverWrappers w) as Hnot.
  { intros Hn. destruct Hn. split; eauto. }
  destruct (getTypeAndField _ _ _) as [[ty fd]|t]; simpl;
    [destruct (wrapResolver _ _ _); simpl|];
    (split; [done|]; split; [done|]; split; [exact Hkeep|];
     split; [done | exact Hnot]).
Qed.

(** X3. A wrapper that holds a resolver does not read the resolver map:
    on two stores it completes in the same way, returning or throwing the
    same thing, and leaves the same captured variables. *)
Theorem held_resolver_ignores_map (w : ResolverMapWrapper) (resolverMap : loc)
    (po : PackOptions) (h1 h2 : Heap) (r : Resolver) :
  resolver w = Some r →
  completed (invoke w resolverMap po h1) = completed (invoke w resolverMap po h2)
  ∧ wrapper' (invoke w resolverMap po h1) = wrapper' (invoke w resolverMap po h2).
Proof.
  intros Hr. unfold invoke. rewrite Hr; simpl.
  destruct (graphqlSchema (dependencies po)) as [schema|]; simpl; [|done].
  destruct (getTypeAndField _ _ _) as [[ty fd]|t]; simpl; [|done].
  by destruct (wrapResolver _ _ _).
Qed.

(** X4. Every invocation that returns, the first or a later one, has
    called [wrapResolver] on the resolver it chose, on the captured
    wrappers followed by [embedPackOptions] as the last one, and on options
    that name the resolver map and the pack options it was given; the
    resolver that call returned is the one found afterwards at [typeName],
    [fieldName] (with [addResolverToMap] an in-place insert). *)
Theorem returning_invocation (w : ResolverMapWrapper) (resolverMap returned : loc)
    (po : PackOptions) (h : Heap) :
  completed (invoke w resolverMap po h) = Returns returned →
  ∃ r wrappers options wrapped,
    or_else (resolver w)
      (lookupResolver (h !!! resolverMap) (typeName w) (fieldName w)) = Some r
    ∧ wrappers = resolverWrappers w ++ [embedPackOptions]
    ∧ last wrappers = Some embedPackOptions
    ∧ resolvers options = resolverMap
    ∧ packOptions options = po
    ∧ wrapResolver r wrappers options = Returns wrapped
    ∧ lookupResolver (heap' (invoke w resolverMap po h) !!! resolverMap)
        (typeName w) (fieldName w) = Some wrapped.
Proof.
  unfold invoke.
  destruct (graphqlSchema (dependencies po)) as [schema|]; [|discriminate].
  destruct (or_else _ _) as [r|] eqn:Hr; [|discriminate].
  destruct (getTypeAndField _ _ _) as [[ty fd]|]; [|discriminate].
  destruct (wrapResolver _ _ _) as [wrapped|] eqn:Hw; [|discriminate].
  simpl. intros _.
  exists r, (resolverWrappers w ++ [embedPackOptions]),
    {| type := ty; field := fd; resolvers := resolverMap; packOptions := po |},
    wrapped.
  repeat split; try done.
  - apply last_snoc.
  - apply WrapInMapProofs.addResolverToMap_installed.
Qed.

(** X5. Two wrappers for the same field chain: when the first has
    installed its wrapped resolver, a second one made without a resolver
    chooses that wrapped resolver from the map, wraps it in turn, and
    replaces the entry with the result (with [addResolverToMap] an
    in-place insert). *)
Theorem wrappers_chain (typeName fieldName : string)
    (wrappers1 wrappers2 : list ResolverWrapper) (resolver1 : option Resolver)
    (resolverMap : loc) (po : PackOptions) (h : Heap)
    (schema : GraphQLSchema) (ty : GraphQLType) (fd : GraphQLField)
    (r wrapped1 wrapped2 : Resolver) :
  let options :=
    {| type := ty; field := fd; resolvers := resolverMap; packOptions := po |} in
  graphqlSchema (dependencies po) = Some schema →
  getTypeAndField typeName fieldName schema = Returns (ty, fd) →
  or_else resolver1 (lookupResolver (h !!! resolverMap) typeName fieldName)
  = Some r →
  wrapResolver r (wrappers1 ++ [embedPackOptions]) options = Returns wrapped1 →
  wrapResolver wrapped1 (wrappers2 ++ [embedPackOptions]) options
  = Returns wrapped2 →
  let first :=
    invoke (wrapResolverInMap typeName fieldName wrappers1 resolver1)
      resolverMap po h in
  let second :=
    invoke (wrapResolverInMap typeName fieldName wrappers2 None)
      resolverMap po (heap' first) in
  completed second = Returns resolverMap
  ∧ lookupResolver (heap' second !!! resolverMap) typeName fieldName
    = Some wrapped2.
Proof.
  intros options Hs Hg Hr Hw1 Hw2 first second. subst options.
  assert (heap' first
          = addResolverToMap resolverMap typeName fieldName wrapped1 true h)
    as Hfirst.
  { unfold first, invoke; simpl. by rewrite Hs, Hr, Hg, Hw1. }
  unfold second. rewrite Hfirst. clear first second Hfirst.
  unfold invoke; simpl.
  rewrite Hs, WrapInMapProofs.addResolverToMap_installed; simpl.
  rewrite Hg, Hw2; simpl.
  split; [reflexivity | apply WrapInMapProofs.addResolverToMap_installed].
Qed.

End Invocations.

Import WrapInMapDemo.

Lemma throwing_invocation_witness :
  let w := wrapResolverInMap (T := types) "Query" "missing" [] (Some (Plain "x")) in
  heap' (invoke w 0 withSchema store) = store
  ∧ completed (invoke w 0 withSchema store)
    = Throws (Raised (T := types) "unknown field").
Proof.
  intros w.
  destruct (throwing_invocation (T := types) (I := imports) w 0 withSchema store
              (Raised (T := types) "unknown field") eq_refl) as [Hheap _].
  split; [exact Hheap | reflexivity].
Defined.

Lemma captured_variables_after_witness :
  let w := wrapResolverInMap (T := types) "Query" "hello" ["log"] None in
  resolverWrappers (wrapper' (invoke w 0 withSchema store))
  = ["log"; "embedPackOptions"].
Proof.
  intros w.
  destruct (captured_variables_after (T := types) (I := imports)
              w 0 withSchema store) as (_ & _ & _ & Hgrown & _).
  apply Hgrown. split; eexists; reflexivity.
Defined.

Lemma held_resolver_ignores_map_witness :
  let w := wrapResolverInMap (T := types) "Query" "hello" ["log"] (Some (Plain "x")) in
  completed (invoke w 0 withSchema store) = completed (invoke w 0 withSchema ∅)
  ∧ wrapper' (invoke w 0 withSchema store) = wrapper' (invoke w 0 withSchema ∅).
Proof.
  apply (held_resolver_ignores_map (T := types) (I := imports)
           (wrapResolverInMap (T := types) "Query" "hello" ["log"] (Some (Plain "x")))
           0 withSchema store ∅ (Plain "x")).
  reflexivity.
Defined.

Lemma returning_invocation_witness :
  let w := wrapResolverInMap (T := types) "Query" "hello" ["log"] None in
  ∃ r wrappers options wrapped,
    or_else (WrapInMap.resolver w) (lookupResolver (store !!! 0) "Query" "hello")
    = Some r
    ∧ wrappers = ["log"; "embedPackOptions"]
    ∧ last wrappers = Some "embedPackOptions"
    ∧ resolvers options = 0
    ∧ packOptions options = withSchema
    ∧ wrapResolver r wrappers options = Returns wrapped
    ∧ lookupResolver (heap' (invoke w 0 withSchema store) !!! 0) "Query" "hello"
      = Some wrapped.
Proof.
  apply (returning_invocation (T := types) (I := imports)
           (wrapResolverInMap (T := types) "Query" "hello" ["log"] None)
           0 0 withSchema store).
  reflexivity.
Defined.

Lemma wrappers_chain_witness :
  let first :=
    invoke (wrapResolverInMap (T := types) "Query" "hello" ["log"] None)
      0 withSchema store in
  let second :=
    invoke (wrapResolverInMap (T := types) "Query" "hello" ["auth"] None)
      0 withSchema (heap' first) in
  completed second = Returns 0
  ∧ lookupResolver (heap' second !!! 0) "Query" "hello"
    = Some (Wrapped "embedPackOptions"
              (Wrapped "auth"
                 (Wrapped "embedPackOptions" (Wrapped "log" (Plain "hello"))))).
Proof.
  apply (wrappers_chain (T := types) (I := imports) "Query" "hello"
           ["log"] ["auth"] None 0 withSchema store querySchema "Query" "hello"
           (Plain "hello")
           (Wrapped "embedPackOptions" (Wrapped "log" (Plain "hello")))
           (Wrapped "embedPackOptions"
              (Wrapped "auth"
                 (Wrapped "embedPackOptions" (Wrapped "log" (Plain "hello"))))));
    reflexivity.
Defined.

End WrapInMapExtras.

(** ** Further properties of the mirage root-query resolver *)

Module MirageExtras.
Import Mirage.

Ltac step :=
  repeat (unfold mbind, mret, completion_bind, completion_ret,
            guarded, rethrow in *; simpl in *).

Section Text.

Lemma length_append (s t : string) :
  String.length (s +:+ t) = String.length s + String.length t.
Proof. induction s as [|ch s IH]; simpl; [reflexivity | by rewrite IH]. Qed.

Lemma substring_all (s : string) : substring 0 (String.length s) s = s.
Proof. induction s as [|ch s IH]; simpl; [reflexivity | by rewrite IH]. Qed.

Lemma substring_after (p t : string) :
  substring (String.length p) (String.length t) (p +:+ t) = t.
Proof. induction p as [|ch p IH]; simpl; [apply substring_all | exact IH]. Qed.

Lemma substring_split (k : nat) (s : string) :
  k ≤ String.length s →
  substring 0 k s +:+ substring k (String.length s - k) s = s.
Proof.
  revert s. induction k as [|k IH]; intros s Hk.
  - rewrite Nat.sub_0_r, substring_all. by destruct s.
  - destruct s as [|ch s]; simpl in *; [lia|].
    change (String ch (substring 0 k s +:+ substring k (String.length s - k) s)
            = String ch s).
    f_equal. apply IH. lia.
Qed.

Lemma endsWith_spec (s suffix : string) :
  endsWith s suffix = true ↔ ∃ before, s = before +:+ suffix.
Proof.
  unfold endsWith. rewrite andb_true_iff, Nat.leb_le, String.eqb_eq. split.
  - intros [Hle Hsub].
    exists (substring 0 (String.length s - String.length suffix) s).
    pose proof (substring_split (String.length s - String.length suffix) s)
      as Hsplit.
    replace (String.length s - (String.length s - String.length suffix))
      with (String.length suffix) in Hsplit by lia.
    rewrite Hsub in Hsplit. symmetry. apply Hsplit. lia.
  - intros [before ->]. rewrite length_append. split; [lia|].
    replace (String.length before + String.length suffix - String.length suffix)
      with (String.length before) by lia.
    apply substring_after.
Qed.

End Text.

Section Matching.
Context {T : Types} {I : Imports}.

Lemma find_nothing {A} (P : A → bool) (l : list A) :
  (∀ x, x ∈ l → P x = false) → List.find P l = None.
Proof.
  induction l as [|y l IH]; intros Hall; simpl; [reflexivity|].
  rewrite (Hall y) by apply list_elem_of_here.
  apply IH. intros x Hx. apply Hall. by apply list_elem_of_further.
Qed.

Lemma find_split {A} (P : A → bool) (l : list A) (c : A) :
  List.find P l = Some c →
  ∃ pre post, l = pre ++ c :: post ∧ P c = true ∧ ∀ x, x ∈ pre → P x = false.
Proof.
  induction l as [|y l IH]; simpl; [discriminate|].
  destruct (P y) eqn:Hy.
  - intros [= <-]. exists [], l. split; [reflexivity|]. split; [exact Hy|].
    by intros x ?%elem_of_nil.
  - intros Hfind. destruct (IH Hfind) as (pre & post & -> & Hc & Hpre).
    exists (y :: pre), post. split; [reflexivity|]. split; [exact Hc|].
    intros x [->|Hx]%elem_of_cons; [exact Hy | by apply Hpre].
Qed.

Lemma hasCollection_false (server : MirageServer) (x : string) :
  hasCollection (Some server) x = false ↔ collectionForType server x ≠ Returns true.
Proof.
  rewrite <- MirageProofs.hasCollection_spec.
  by destruct (hasCollection (Some server) x).
Qed.

(** X6. A field is treated as relay paginated exactly when the name of
    its unwrapped return type is some text followed by [Connection]; the
    text may be empty. *)
Theorem relay_paginated_names (i : Info) :
  isRelayPaginated i = true
  ↔ ∃ before, name (unwrap (returnType i)) = before +:+ "Connection".
Proof. apply endsWith_spec. Qed.

(** X7. In a match that [findMatchingModelsForType] returns, a matched
    model name is one of the candidates, [collectionForType] gave a
    collection for it, and gave none (or threw) for every candidate before
    it; when no model name is matched, no candidate has a collection. *)
Theorem matched_model_has_collection (type : GraphQLOutputType)
    (mapper : option MirageGraphQLMapper) (mirageServer : option MirageServer)
    (m : RootQueryResolverMatch) :
  findMatchingModelsForType type mapper mirageServer = Returns m →
  ∃ server,
    mirageServer = Some server
    ∧ (∀ c, matchedModelName m = Some c →
         ∃ pre post,
           modelNameCandidates m = pre ++ c :: post
           ∧ collectionForType server c = Returns true
           ∧ ∀ x, x ∈ pre → collectionForType server x ≠ Returns true)
    ∧ (matchedModelName m = None →
         ∀ x, x ∈ modelNameCandidates m →
           collectionForType server x ≠ Returns true).
Proof.
  unfold findMatchingModelsForType.
  destruct mirageServer as [server|]; step; [|discriminate].
  destruct (schema_all server _) as [found|]; step; [|discriminate].
  intros [= <-]; simpl. exists server. split; [reflexivity|]. split.
  - intros c (pre & post & Hsplit & Hc & Hpre)%find_split.
    exists pre, post. split; [exact Hsplit|].
    split; [by apply MirageProofs.hasCollection_spec|].
    intros x Hx. apply hasCollection_false. by apply Hpre.
  - intros Hnone x Hx. apply hasCollection_false.
    apply (List.find_none _ _ Hnone). by apply list_elem_of_In.
Qed.

(** X8. The candidates of a returned match are at most three, none is the
    empty string, and each is the mapper's entry for the type name, the
    cleaned relay name, or the type name itself. *)
Theorem candidates_wellformed (type : GraphQLOutputType)
    (mapper : option MirageGraphQLMapper) (mirageServer : option MirageServer)
    (m : RootQueryResolverMatch) :
  findMatchingModelsForType type mapper mirageServer = Returns m →
  let n := name (unwrap type) in
  length (modelNameCandidates m) ≤ 3
  ∧ ∀ x, x ∈ modelNameCandidates m →
      x ≠ EmptyString
      ∧ (mappedModelName mapper n = Some x
         ∨ cleanRelayConnectionName n = Some x
         ∨ x = n).
Proof.
  unfold findMatchingModelsForType.
  rewrite MirageProofs.filterBoolean_candidates.
  set (candidates := candidate _ ++ candidate _ ++ candidate _).
  destruct (rethrow _ _) as [found|]; unfold mbind, completion_bind, mret,
    completion_ret; [|discriminate].
  intros [= <-]; cbn [modelNameCandidates]. unfold candidates. split.
  - rewrite !length_app.
    assert (∀ x, length (candidate x) ≤ 1) as Hone.
    { intros [s|]; simpl; [destruct (String.eqb s EmptyString)|]; simpl; lia. }
    pose proof (Hone (mappedModelName mapper (name (unwrap type)))).
    pose proof (Hone (cleanRelayConnectionName (name (unwrap type)))).
    pose proof (Hone (Some (name (unwrap type)))). lia.
  - intros x [Hx|[Hx|Hx]%elem_of_app]%elem_of_app;
      apply MirageProofs.candidate_nonempty in Hx as [Hne Hx];
      (split; [exact Hne|]); [by left | by right; left | right; right].
    by injection Hx.
Qed.

(** X9. When no candidate has a collection, the collection is looked up
    under [undefined]: if that lookup throws, the error names the model
    [undefined] and quotes the message of what was thrown; if it returns,
    the match has no model name. *)
Theorem no_candidate_matches (type : GraphQLOutputType)
    (mapper : option MirageGraphQLMapper) (server : MirageServer) :
  let n := name (unwrap type) in
  let candidates :=
    candidate (mappedModelName mapper n)
    ++ candidate (cleanRelayConnectionName n)
    ++ candidate (Some n) in
  (∀ x, x ∈ candidates → collectionForType server x ≠ Returns true) →
  findMatchingModelsForType type mapper (Some server)
  = match schema_all server None with
    | Returns found =>
      Returns {| models := from_option collection_models undefined found;
                 matchedModelName := None;
                 modelNameCandidates := candidates |}
    | Throws e =>
      Throws (Error ("Unable to look up collection for undefined on mirage schema, received error:"
                     +:+ newline +:+ message e))
    end.
Proof.
  intros n candidates Hnone.
  unfold findMatchingModelsForType. fold n.
  rewrite MirageProofs.filterBoolean_candidates. fold candidates.
  rewrite find_nothing.
  - step. by destruct (schema_all server None).
  - intros x Hx. apply hasCollection_false. by apply Hnone.
Qed.

(** X10. Without a mirage server no candidate is matched and the lookup
    throws: [findMatchingModelsForType] throws an [Error] that names the
    model [undefined] and quotes the message of the [TypeError], and so
    does the resolver on every field whose return type is not a scalar. *)
Theorem without_mirage_server (p : Parent) (a : Args) (c : Ctx) (i : Info) :
  mirageServer (extractDependencies c) = None →
  let lookupError :=
    Error ("Unable to look up collection for undefined on mirage schema, received error:"
           +:+ newline +:+ message undefinedServerError) in
  findMatchingModelsForType (returnType i)
    (mirageMapper (extractDependencies c)) None = Throws lookupError
  ∧ (isScalarType (unwrap (returnType i)) = false →
     mirageRootQueryResolver p a c i = Throws lookupError).
Proof.
  intros Hserver lookupError.
  assert (∀ mapper, findMatchingModelsForType (returnType i) mapper None
                    = Throws lookupError) as Hfind.
  { intros mapper. unfold findMatchingModelsForType.
    rewrite find_nothing; [reflexivity|]. by intros x _. }
  split; [apply Hfind|].
  intros Hscalar. unfold mirageRootQueryResolver, queryModels.
  rewrite Hscalar, Hserver. cbn [andb negb]. by rewrite Hfind.
Qed.

(** X14. When the lookup of the matched collection throws, the error
    that [findMatchingModelsForType] throws names the matched model and
    quotes the message of what was thrown. *)
Theorem matched_lookup_error (type : GraphQLOutputType)
    (mapper : option MirageGraphQLMapper) (server : MirageServer)
    (pre post : list string) (modelName : string) (e : Thrown) :
  let n := name (unwrap type) in
  candidate (mappedModelName mapper n)
  ++ candidate (cleanRelayConnectionName n)
  ++ candidate (Some n) = pre ++ modelName :: post →
  (∀ x, x ∈ pre → collectionForType server x ≠ Returns true) →
  collectionForType server modelName = Returns true →
  schema_all server (Some modelName) = Throws e →
  findMatchingModelsForType type mapper (Some server)
  = Throws (Error ("Unable to look up collection for " +:+ modelName
                   +:+ " on mirage schema, received error:"
                   +:+ newline +:+ message e)).
Proof.
  intros n Hsplit Hpre Hc Hall.
  unfold findMatchingModelsForType. fold n.
  rewrite MirageProofs.filterBoolean_candidates, Hsplit.
  rewrite MirageProofs.find_first.
  - step. by rewrite Hall.
  - intros x Hx. apply hasCollection_false. by apply Hpre.
  - by apply MirageProofs.hasCollection_spec.
Qed.

End Matching.

Section Resolving.
Context {T : Types} {I : Imports}.

(** X11. Without a mapper there is no field filter: a field resolving to
    a scalar always throws the error that recommends one, a field of
    another type goes from the model lookup straight to pagination or
    return-type coercion, and an [AutoResolverError] never reports a field
    filter. *)
Theorem without_mapper (p : Parent) (a : Args) (c : Ctx) (i : Info) :
  mirageMapper (extractDependencies c) = None →
  let deps := extractDependencies c in
  let errorMeta := initialErrorMeta p a c i None in
  (isScalarType (unwrap (returnType i)) = true →
     mirageRootQueryResolver p a c i
     = Throws (Error (scalarsCannotBeAutoResolved i)))
  ∧ (isScalarType (unwrap (returnType i)) = false →
       mirageRootQueryResolver p a c i
       = (m ← findMatchingModelsForType (returnType i) None (mirageServer deps);
          coerceResult a i (setMatch errorMeta m) (models m)))
  ∧ (∀ t meta,
       mirageRootQueryResolver p a c i = Throws (AutoResolverError t meta) →
       hasFieldFilter meta = false ∧ usedFieldFilter meta = false).
Proof.
  intros Hmapper deps errorMeta.
  assert (fieldFilterFor deps i = None) as Hff.
  { unfold fieldFilterFor, deps. by rewrite Hmapper. }
  assert (isScalarType (unwrap (returnType i)) = false →
          mirageRootQueryResolver p a c i
          = (m ← findMatchingModelsForType (returnType i) None (mirageServer deps);
             coerceResult a i (setMatch errorMeta m) (models m))) as Hobject.
  { intros Hscalar. unfold mirageRootQueryResolver, queryModels.
    fold deps. rewrite Hff, Hscalar. unfold deps at 1. rewrite Hmapper.
    cbn [andb negb]. fold errorMeta.
    by destruct (findMatchingModelsForType _ _ _). }
  assert (isScalarType (unwrap (returnType i)) = true →
          mirageRootQueryResolver p a c i
          = Throws (Error (scalarsCannotBeAutoResolved i))) as Hscalars.
  { intros Hscalar. unfold mirageRootQueryResolver, queryModels.
    fold deps. by rewrite Hff, Hscalar. }
  split; [exact Hscalars|]. split; [exact Hobject|].
  intros t meta.
  destruct (isScalarType (unwrap (returnType i))) eqn:Hscalar.
  - rewrite Hscalars by reflexivity. discriminate.
  - rewrite Hobject by reflexivity.
    destruct (findMatchingModelsForType _ _ _) as [m|e] eqn:Hfind; step.
    + intros Hthrow.
      destruct (MirageProofs.coerceResult_throws _ _ _ _ _ Hthrow) as [t' [= _ ->]].
      done.
    + intros [= ->]. revert Hfind. unfold findMatchingModelsForType.
      destruct (withSchema _ _); step; discriminate.
Qed.

(** X12. The field-filter flags of an [AutoResolverError] tell where the
    resolver failed. With [usedFieldFilter] set, the filter had returned
    and the failure is in the pagination or coercion of what it returned.
    With [hasFieldFilter] set and [usedFieldFilter] not, the failure is in
    the list coercion before the filter or in the filter itself. With
    [hasFieldFilter] not set there is no filter for the field. *)
Theorem field_filter_flags_locate_failure (p : Parent) (a : Args) (c : Ctx)
    (i : Info) (t : Thrown) (meta : AutoResolverErrorMeta) :
  mirageRootQueryResolver p a c i = Throws (AutoResolverError t meta) →
  let deps := extractDependencies c in
  let fieldFilter := fieldFilterFor deps i in
  let errorMeta := initialErrorMeta p a c i fieldFilter in
  (usedFieldFilter meta = true →
     hasFieldFilter meta = true
     ∧ ∃ meta1 result1 filter l filtered,
         queryModels deps i fieldFilter errorMeta = Returns (meta1, result1)
         ∧ fieldFilter = Some filter
         ∧ coerceToList result1 = Returns l
         ∧ filter (orEmpty l) p a c i = Returns filtered
         ∧ meta = setUsedFieldFilter meta1
         ∧ coerceResult a i meta filtered = Throws (AutoResolverError t meta))
  ∧ (usedFieldFilter meta = false → hasFieldFilter meta = true →
       ∃ result1 filter,
         queryModels deps i fieldFilter errorMeta = Returns (meta, result1)
         ∧ fieldFilter = Some filter
         ∧ (coerceToList result1 = Throws t
            ∨ ∃ l, coerceToList result1 = Returns l
                   ∧ filter (orEmpty l) p a c i = Throws t))
  ∧ (hasFieldFilter meta = false →
       usedFieldFilter meta = false ∧ fieldFilter = None).
Proof.
  intros Hthrow deps fieldFilter errorMeta.
  unfold mirageRootQueryResolver in Hthrow. fold deps fieldFilter errorMeta in Hthrow.
  destruct (queryModels deps i fieldFilter errorMeta) as [[m1 r1]|e1] eqn:Hq.
  2:{ destruct (MirageProofs.queryModels_throws _ _ _ _ _ Hq) as [msg ->].
      step. discriminate. }
  destruct (MirageProofs.queryModels_accumulated p a c i m1 r1 Hq)
    as (_ & _ & _ & _ & _ & _ & Hhas & Hused & _).
  fold deps fieldFilter in Hhas.
  assert (fieldFilter = fieldFilterFor deps i) as Hff by reflexivity.
  clearbody fieldFilter. step.
  destruct fieldFilter as [filter|]; step.
  - destruct (coerceToList r1) as [l|t1] eqn:Hl; step.
    + destruct (filter (orEmpty l) p a c i) as [filtered|t2] eqn:Hfl; step.
      * destruct (MirageProofs.coerceResult_throws _ _ _ _ _ Hthrow)
          as [t' [= <- ->]].
        split; [|split].
        -- intros _. split; [exact Hhas|].
           by exists m1, r1, filter, l, filtered.
        -- simpl. discriminate.
        -- simpl. rewrite Hhas. discriminate.
      * injection Hthrow as <- <-. split; [|split].
        -- rewrite Hused. discriminate.
        -- intros _ _. exists r1, filter. split; [reflexivity|].
           split; [reflexivity|]. right. by exists l.
        -- rewrite Hhas. discriminate.
    + injection Hthrow as <- <-. split; [|split].
      * rewrite Hused. discriminate.
      * intros _ _. exists r1, filter. split; [reflexivity|].
        split; [reflexivity|]. by left.
      * rewrite Hhas. discriminate.
  - destruct (MirageProofs.coerceResult_throws _ _ _ _ _ Hthrow)
      as [t' [= <- ->]].
    split; [|split].
    + rewrite Hused. discriminate.
    + rewrite Hhas. discriminate.
    + intros _. by split.
Qed.

(** X13. End to end, for a field that is not a scalar and has no field
    filter: when the first candidate with a collection is [modelName], the
    resolver returns the models of that collection through
    [coerceReturnType], or, on a relay connection whose models coerce to a
    list of nodes, the relay pagination of those nodes; an error on the way
    carries the match. *)
Theorem auto_resolved_from_first_collection (p : Parent) (a : Args) (c : Ctx)
    (i : Info) (server : MirageServer) (pre post : list string)
    (modelName : string) (found : option Collection) :
  let deps := extractDependencies c in
  let n := name (unwrap (returnType i)) in
  let candidates :=
    candidate (mappedModelName (mirageMapper deps) n)
    ++ candidate (cleanRelayConnectionName n)
    ++ candidate (Some n) in
  let result := from_option collection_models undefined found in
  let errorMeta :=
    setMatch (initialErrorMeta p a c i None)
      {| models := result; matchedModelName := Some modelName;
         modelNameCandidates := candidates |} in
  isScalarType (unwrap (returnType i)) = false →
  fieldFilterFor deps i = None →
  mirageServer deps = Some server →
  candidates = pre ++ modelName :: post →
  (∀ x, x ∈ pre → collectionForType server x ≠ Returns true) →
  collectionForType server modelName = Returns true →
  schema_all server (Some modelName) = Returns found →
  (endsWith n "Connection" = false →
     mirageRootQueryResolver p a c i
     = guarded errorMeta (coerceReturnType result i))
  ∧ (endsWith n "Connection" = true →
       ∀ nodes, coerceToList result = Returns (Present nodes) →
         mirageRootQueryResolver p a c i
         = guarded errorMeta (relayPaginateNodes nodes a mirageCursorForNode)).
Proof.
  intros deps n candidates result errorMeta
    Hscalar Hff Hserver Hsplit Hpre Hc Hall.
  assert (findMatchingModelsForType (returnType i)
            (mirageMapper deps) (mirageServer deps)
          = Returns {| models := result; matchedModelName := Some modelName;
                       modelNameCandidates := candidates |}) as Hfind.
  { rewrite Hserver. unfold findMatchingModelsForType. fold n.
    rewrite MirageProofs.filterBoolean_candidates. fold candidates.
    assert (List.find (hasCollection (Some server)) candidates = Some modelName)
      as ->.
    { rewrite Hsplit. apply MirageProofs.find_first.
      - intros x Hx. apply hasCollection_false. by apply Hpre.
      - by apply MirageProofs.hasCollection_spec. }
    step. by rewrite Hall. }
  assert (mirageRootQueryResolver p a c i
          = coerceResult a i errorMeta result) as ->.
  { unfold mirageRootQueryResolver, queryModels. fold deps.
    rewrite Hff, Hscalar. cbn [andb negb]. rewrite Hfind. reflexivity. }
  unfold coerceResult, isRelayPaginated. fold n.
  split; intros ->; [reflexivity|].
  intros nodes Hnodes. step. by rewrite Hnodes.
Qed.

End Resolving.

Import MirageDemo.

Lemma matched_model_has_collection_witness :
  ∃ pre post,
    ["Creature"; "Animal"] = pre ++ "Animal" :: post
    ∧ collectionForType (T := types) server "Animal" = Returns true
    ∧ ∀ x, x ∈ pre → collectionForType (T := types) server x ≠ Returns true.
Proof.
  destruct (matched_model_has_collection (T := types) (I := imports)
              (Named "Animal" false) (Some ()) (Some server)
              animalMatch eq_refl) as (found & Hserver & Hmatched & _).
  injection Hserver as <-.
  exact (Hmatched "Animal" eq_refl).
Defined.

Lemma candidates_wellformed_witness :
  length ["Creature"; "Animal"] ≤ 3
  ∧ ∀ x, x ∈ ["Creature"; "Animal"] →
      x ≠ EmptyString
      ∧ (mappedModelName (T := types) (Some ()) "Animal" = Some x
         ∨ cleanRelayConnectionName (T := types) "Animal" = Some x
         ∨ x = "Animal").
Proof.
  exact (candidates_wellformed (T := types) (I := imports)
           (Named "Animal" false) (Some ()) (Some server)
           animalMatch eq_refl).
Defined.

Lemma no_candidate_matches_witness :
  findMatchingModelsForType (T := types) (Named "Ghost" false) (Some ()) (Some server)
  = Throws (Error ("Unable to look up collection for undefined on mirage schema, received error:"
                   +:+ newline +:+ "no such collection")).
Proof.
  apply (no_candidate_matches (T := types) (I := imports)
           (Named "Ghost" false) (Some ()) server).
  intros x Hx. apply (list_elem_of_singleton x "Ghost") in Hx as ->.
  vm_compute. discriminate.
Defined.

Lemma matched_lookup_error_witness :
  findMatchingModelsForType
    (I := withCollections imports collectionForType (λ _ _, Throws "store closed"))
    (Named "Animal" false) (Some ()) (Some server)
  = Throws (Error ("Unable to look up collection for Animal on mirage schema, received error:"
                   +:+ newline +:+ "store closed")).
Proof.
  apply (matched_lookup_error (T := types)
           (I := withCollections imports collectionForType
                   (λ _ _, Throws "store closed"))
           (Named "Animal" false) (Some ()) server ["Creature"] [] "Animal"
           "store closed").
  - reflexivity.
  - intros x ->%list_elem_of_singleton. vm_compute. discriminate.
  - reflexivity.
  - reflexivity.
Defined.

Lemma without_mirage_server_witness :
  mirageRootQueryResolver (T := types) () 2 0 people
  = Throws (Error ("Unable to look up collection for undefined on mirage schema, received error:"
                   +:+ newline +:+ "cannot read properties of undefined")).
Proof.
  destruct (without_mirage_server (T := types) (I := imports) () 2 0 people
              eq_refl) as [_ Hresolver].
  exact (Hresolver eq_refl).
Defined.

Lemma without_mapper_witness :
  mirageRootQueryResolver (T := types) () 2 2 motto
  = Throws (Error (scalarsCannotBeAutoResolved motto)).
Proof.
  destruct (without_mapper (T := types) (I := imports) () 2 2 motto eq_refl)
    as [Hscalar _].
  exact (Hscalar eq_refl).
Defined.

Lemma field_filter_flags_locate_failure_witness :
  ∃ result1 filter,
    queryModels (dependenciesOf 1) broken (fieldFilterFor (dependenciesOf 1) broken)
      (initialErrorMeta (T := types) () 2 1 broken
         (fieldFilterFor (dependenciesOf 1) broken))
    = Returns (brokenMeta, result1)
    ∧ fieldFilterFor (dependenciesOf 1) broken = Some filter
    ∧ (coerceToList result1 = Throws "filter failed"
       ∨ ∃ l, coerceToList result1 = Returns l
              ∧ filter (orEmpty l) () 2 1 broken = Throws "filter failed").
Proof.
  destruct (field_filter_flags_locate_failure (T := types) (I := imports)
              () 2 1 broken "filter failed" brokenMeta eq_refl)
    as (_ & Hfilter & _).
  exact (Hfilter eq_refl eq_refl).
Defined.

Lemma auto_resolved_from_first_collection_witness :
  mirageRootQueryResolver (T := types) () 2 1 people
  = Returns (DArray [DModel 1; DModel 2]).
Proof.
  assert (∀ x : string, x ∈ [] →
            collectionForType (T := types) server x ≠ Returns true) as Hpre.
  { intros x Hx. by apply elem_of_nil in Hx. }
  destruct (auto_resolved_from_first_collection (T := types) (I := imports)
              () 2 1 people server [] ["Human"] "Person" (Some [1; 2])
              eq_refl eq_refl eq_refl eq_refl Hpre eq_refl eq_refl)
    as [Hplain _].
  exact (Hplain eq_refl).
Defined.

End MirageExtras.
